(** * Attendance system: the check-in / check-out service and its stores

    A shallow embedding of [src/services/attendanceService.js] together with
    the parts of the controller ([attendanceController.js]) and of the schema
    ([001_initial_schema.sql]) that decide its behaviour.
    The login path is embedded as well: [authService.js], the middleware
    ([middleware/auth.js]), [authController.js] and the two route tables.

    Conventions of the embedding.
    - A JavaScript [Date] is its epoch value: an integer number of
      milliseconds, in [Z].
    - The string produced by [getTodayDate] ("YYYY-MM-DD", the UTC calendar
      date) is represented by the day number it denotes (days since the
      epoch); a DATE column holds the same day number.
    - Local wall-clock time is UTC plus a fixed offset (field [tzOffset] of
      the configuration, in milliseconds); daylight-saving changes of the
      offset within one day are outside the model.
    - A DATETIME column holds the instant it was given; the rounding of the
      column to whole seconds is not represented, and a statement about a
      stored instant read back from the table speaks of instants on a whole
      second.
    - An [await]ed call on MySQL, Redis or the Bull queue is one atomic state
      transformer; a thrown exception is a [Rejected] outcome that leaves
      the effects already performed in place (nothing in the service rolls
      back). *)

From Stdlib Require Import ZArith Lia Ascii String.
From stdpp Require Import gmap list strings sorting pretty.

Local Open Scope Z_scope.

(** ** Process configuration *)

(** [process.env]: [WORK_START_TIME], already split at ":" and converted with
    [Number] (hour, minute), or absent; and the time zone of the process.
    The pair is what [isLate] reads of the text, whatever follows the second
    field. It stands for the whole text when the text reads HH:MM with the
    hour in 0..23 and the minute in 0..59, the form the README documents
    ([WORK_START_TIME=09:00]). *)
Record Config := {
  WORK_START_TIME : option (Z * Z);
  tzOffset : Z
}.

(** ** Clock and lateness policy

    The pure methods of [AttendanceService]: [getTodayDate] (as a function of
    the instant it is called at), [isLate] and [calculateMinutesLate]. *)

Module Clock.

Definition msPerSecond : Z := 1000.
Definition msPerMinute : Z := 1000 * 60.
Definition msPerHour : Z := 60 * msPerMinute.
Definition msPerDay : Z := 24 * msPerHour.

(** [new Date().toISOString().split("T")[0]]: the UTC calendar day. *)
Definition getTodayDate (now : Z) : Z := now / msPerDay.

(** Local calendar day of a timestamp (what [toDateString] prints). *)
Definition toDateString (cfg : Config) (t : Z) : Z :=
  (t + tzOffset cfg) / msPerDay.

(** Local time of day of a timestamp, in milliseconds since local
    midnight. *)
Definition timeOfDay (cfg : Config) (t : Z) : Z :=
  (t + tzOffset cfg) mod msPerDay.

(** [d.setHours(h, m, 0, 0)]: same local day, the time fields replaced. *)
Definition setHours (cfg : Config) (d : Z) (h m s ms : Z) : Z :=
  d - timeOfDay cfg d + (h * msPerHour + m * msPerMinute + s * msPerSecond + ms).

(** [new Date(dateString + " " + "HH:MM")]: that local day at HH:MM:00.000,
    for an hour in 0..23 and a minute in 0..59 (the Date parser does not
    read other fields this way). *)
Definition parseDateTime (cfg : Config) (day : Z) (hm : Z * Z) : Z :=
  day * msPerDay + (fst hm * msPerHour + snd hm * msPerMinute) - tzOffset cfg.

(** [process.env.WORK_START_TIME || "09:00"] *)
Definition workStartTime (cfg : Config) : Z * Z :=
  match WORK_START_TIME cfg with
  | Some hm => hm
  | None => (9, 0)
  end.

Definition isLate (cfg : Config) (checkInTime : Z) : bool :=
  let '(startHour, startMinute) := workStartTime cfg in
  let checkIn := checkInTime in
  let startTime := setHours cfg checkIn startHour startMinute 0 0 in
  checkIn >? startTime.

(** [Math.floor] of the quotient of two integers: floor division. The
    source parses the whole of WORK_START_TIME after the printed date; this
    is the function for a text that reads HH:MM (see [validStart]), and
    [WithSeconds.calculateMinutesLate] is the one for HH:MM:SS. *)
Definition calculateMinutesLate (cfg : Config) (checkInTime : Z) : Z :=
  let startTime :=
    parseDateTime cfg (toDateString cfg checkInTime) (workStartTime cfg) in
  (checkInTime - startTime) / (1000 * 60).

(** Start of the working day on the local date of [t]. *)
Definition startOfDay (cfg : Config) (t : Z) : Z :=
  parseDateTime cfg (toDateString cfg t) (workStartTime cfg).

End Clock.

(** ** MySQL: the two tables and the four statements the service executes *)

Record Employee := {
  id : Z;
  name : string;
  department : string
}.

(** A row of [attendance]; [UNIQUE(employee_id, date)]. The DATETIME columns
    hold the timestamp that was bound to the statement (their rounding to
    whole seconds is not represented). *)
Record Attendance := {
  employee_id : Z;
  date : Z;
  check_in_time : option Z;
  check_out_time : option Z
}.

(** [collation] is the order [ORDER BY e.name] uses. *)
Record Database := {
  collation : string -> string -> comparison;
  employees : list Employee;
  attendance : list Attendance
}.

(** A row of the report query: the employee columns and the attendance
    columns, the latter NULL when the LEFT JOIN found no match. *)
Record ReportRow := {
  r_id : Z;
  r_name : string;
  r_department : string;
  r_date : option Z;
  r_check_in_time : option Z;
  r_check_out_time : option Z
}.

Inductive Statement :=
| InsertAttendance (userId date checkInTime : Z)
| UpdateCheckOut (checkOutTime userId date : Z)
| SelectEmployeesIn (employeeIds : list Z)
| SelectReport (startDate endDate : Z).

Module MySQL.

(** [employee_id = ? AND date = ?] *)
Definition hasKey (userId d : Z) (a : Attendance) : bool :=
  (employee_id a =? userId) && (date a =? d).

Definition setCheckIn (t : Z) (a : Attendance) : Attendance :=
  {| employee_id := employee_id a; date := date a;
     check_in_time := Some t; check_out_time := check_out_time a |}.

Definition setCheckOut (t : Z) (a : Attendance) : Attendance :=
  {| employee_id := employee_id a; date := date a;
     check_in_time := check_in_time a; check_out_time := Some t |}.

Definition withAttendance (db : Database) (rows : list Attendance) : Database :=
  {| collation := collation db; employees := employees db; attendance := rows |}.

(** [INSERT INTO attendance (employee_id, date, check_in_time) VALUES (?, ?, ?)
     ON DUPLICATE KEY UPDATE check_in_time = VALUES(check_in_time)].
    [None] is the foreign-key error for an [employee_id] with no row in
    [employees]. The row keeps the instant as given; the column is DATETIME
    without fractional seconds, so the table holds it rounded to the whole
    second, and the two agree for an instant on a whole second. *)
Definition insertAttendance (userId d t : Z) (db : Database) : option Database :=
  if existsb (fun e => id e =? userId) (employees db) then
    Some (withAttendance db
      (if existsb (hasKey userId d) (attendance db)
       then map (fun a => if hasKey userId d a then setCheckIn t a else a)
                (attendance db)
       else attendance db ++
            [{| employee_id := userId; date := d;
                check_in_time := Some t; check_out_time := None |}]))
  else None.

(** [UPDATE attendance SET check_out_time = ? WHERE employee_id = ? AND date = ?];
    the second component is [affectedRows], the number of rows the WHERE
    clause matched (the count the driver reports with its default connection
    flags). The instant is kept as given, as in [insertAttendance]. *)
Definition updateCheckOut (t userId d : Z) (db : Database) : Database * Z :=
  (withAttendance db
     (map (fun a => if hasKey userId d a then setCheckOut t a else a)
          (attendance db)),
   Z.of_nat (length (List.filter (hasKey userId d) (attendance db)))).

(** [SELECT id, name, department FROM employees WHERE id IN (...)] *)
Definition selectEmployeesIn (employeeIds : list Z) (db : Database) : list Employee :=
  List.filter (fun e => existsb (Z.eqb (id e)) employeeIds) (employees db).

(** [e.id = a.employee_id AND DATE(a.date) BETWEEN DATE(?) AND DATE(?)] *)
Definition joins (startDate endDate : Z) (e : Employee) (a : Attendance) : bool :=
  (id e =? employee_id a) && ((startDate <=? date a) && (date a <=? endDate)).

Definition nullRow (e : Employee) : ReportRow :=
  {| r_id := id e; r_name := name e; r_department := department e;
     r_date := None; r_check_in_time := None; r_check_out_time := None |}.

Definition joinedRow (e : Employee) (a : Attendance) : ReportRow :=
  {| r_id := id e; r_name := name e; r_department := department e;
     r_date := Some (date a); r_check_in_time := check_in_time a;
     r_check_out_time := check_out_time a |}.

(** [employees e LEFT JOIN attendance a ON ...]: an employee without a
    matching attendance row still yields one row, with NULLs. *)
Definition leftJoin (startDate endDate : Z) (db : Database) : list ReportRow :=
  flat_map
    (fun e =>
       match List.filter (joins startDate endDate e) (attendance db) with
       | [] => [nullRow e]
       | matched => map (joinedRow e) matched
       end)
    (employees db).

(** [ORDER BY e.name, a.date] (ascending, NULL dates first). *)
Definition dateLeb (d1 d2 : option Z) : bool :=
  match d1, d2 with
  | None, _ => true
  | Some _, None => false
  | Some x, Some y => x <=? y
  end.

Definition rowLeb (db : Database) (r1 r2 : ReportRow) : bool :=
  match collation db (r_name r1) (r_name r2) with
  | Lt => true
  | Eq => dateLeb (r_date r1) (r_date r2)
  | Gt => false
  end.

Definition orderBy (db : Database) (rows : list ReportRow) : list ReportRow :=
  merge_sort (fun r1 r2 => Is_true (rowLeb db r1 r2)) rows.

Definition selectReport (startDate endDate : Z) (db : Database) : list ReportRow :=
  orderBy db (leftJoin startDate endDate db).

End MySQL.

(** ** Redis: string keys with expiry, and the presence set *)

(** The two families of keys the service uses,
    [`checkin:${userId}:${date}`] and [`report:${startDate}:${endDate}`]. *)
Inductive CacheKey :=
| CheckinKey (userId date : Z)
| ReportKey (startDate endDate : Z).

#[global] Instance CacheKey_eq_dec : EqDecision CacheKey.
Proof. solve_decision. Defined.

#[global] Instance CacheKey_countable : Countable CacheKey.
Proof.
  refine (inj_countable'
    (fun k => match k with
              | CheckinKey u d => inl (u, d)
              | ReportKey s e => inr (s, e)
              end)
    (fun x => match x with
              | inl (u, d) => CheckinKey u d
              | inr (s, e) => ReportKey s e
              end) _).
  by intros [].
Defined.

Record Report := {
  startDate : Z;
  endDate : Z;
  records : list ReportRow
}.

(** What the service stores under a key: [checkInTime.toISOString()] or
    [JSON.stringify(report)]. A report and its JSON text are identified:
    [JSON.parse] of the stored text gives the report that the response
    serialises to the same text. *)
Inductive CacheValue :=
| IsoString (t : Z)
| Json (report : Report).

(** [keyspace] maps a key to its value and the instant it expires at;
    [employees_in_office] is the set of that name. *)
Record Redis := {
  keyspace : gmap CacheKey (CacheValue * Z);
  employees_in_office : gset Z
}.

Module RedisClient.

(** GET: a key whose expiry instant has passed reads as absent. *)
Definition get (now : Z) (key : CacheKey) (r : Redis) : option CacheValue :=
  match keyspace r !! key with
  | Some (v, expiresAt) => if now <=? expiresAt then Some v else None
  | None => None
  end.

(** SETEX key seconds value *)
Definition setEx (now : Z) (key : CacheKey) (seconds : Z) (v : CacheValue)
    (r : Redis) : Redis :=
  {| keyspace := <[key := (v, now + seconds * 1000)]> (keyspace r);
     employees_in_office := employees_in_office r |}.

Definition sAdd (member : Z) (r : Redis) : Redis :=
  {| keyspace := keyspace r;
     employees_in_office := {[member]} ∪ employees_in_office r |}.

(** SREM returns the number of members removed. *)
Definition sRem (member : Z) (r : Redis) : Redis * Z :=
  ({| keyspace := keyspace r;
      employees_in_office := employees_in_office r ∖ {[member]} |},
   if decide (member ∈ employees_in_office r) then 1 else 0).

Definition sMembers (r : Redis) : list Z := elements (employees_in_office r).

End RedisClient.

(** ** Bull queue "email notifications" *)

Record Job := {
  employeeId : Z;
  employeeName : string;
  jobCheckInTime : Z;
  minutesLate : Z
}.

(** ** The world the service runs in, and asynchronous computations *)

Record World := {
  clock : Z;
  mysql : Database;
  sqlLog : list Statement;
  redis : Redis;
  emailQueue : list Job;
  queueReady : bool
}.

Inductive Exception :=
| Error (message : string)
| ForeignKeyError
| QueueError
| SyntaxError.

Inductive Outcome (A : Type) :=
| Resolved (a : A)
| Rejected (e : Exception).
Arguments Resolved {A} a.
Arguments Rejected {A} e.

(** An [async] function: it transforms the world and either resolves or
    rejects; the world after a rejection keeps the effects made so far. *)
Definition Async (A : Type) : Type := World -> Outcome A * World.

Definition ret {A} (a : A) : Async A := fun w => (Resolved a, w).
Definition throw {A} (e : Exception) : Async A := fun w => (Rejected e, w).
Definition bind {A B} (m : Async A) (k : A -> Async B) : Async B :=
  fun w =>
    match m w with
    | (Resolved a, w') => k a w'
    | (Rejected e, w') => (Rejected e, w')
    end.

Notation "'await' x <- m ; k" := (bind m (fun x => k))
  (at level 10, x name, m at level 100, k at level 200).

Definition setClock (t : Z) (w : World) : World :=
  {| clock := t; mysql := mysql w; sqlLog := sqlLog w; redis := redis w;
     emailQueue := emailQueue w; queueReady := queueReady w |}.

Definition setRedis (r : Redis) (w : World) : World :=
  {| clock := clock w; mysql := mysql w; sqlLog := sqlLog w; redis := r;
     emailQueue := emailQueue w; queueReady := queueReady w |}.

Definition setMysql (db : Database) (w : World) : World :=
  {| clock := clock w; mysql := db; sqlLog := sqlLog w; redis := redis w;
     emailQueue := emailQueue w; queueReady := queueReady w |}.

Definition logSql (st : Statement) (w : World) : World :=
  {| clock := clock w; mysql := mysql w; sqlLog := sqlLog w ++ [st];
     redis := redis w; emailQueue := emailQueue w; queueReady := queueReady w |}.

Definition pushJob (j : Job) (w : World) : World :=
  {| clock := clock w; mysql := mysql w; sqlLog := sqlLog w; redis := redis w;
     emailQueue := emailQueue w ++ [j]; queueReady := queueReady w |}.

(** Run [m] at instant [t]. *)
Definition at_time {A} (t : Z) (m : Async A) : Async A :=
  fun w => m (setClock t w).

(** *** The awaited calls *)

(** [new Date()] *)
Definition newDate : Async Z := fun w => (Resolved (clock w), w).

Module client.

Definition get (key : CacheKey) : Async (option CacheValue) :=
  fun w => (Resolved (RedisClient.get (clock w) key (redis w)), w).

Definition setEx (key : CacheKey) (seconds : Z) (v : CacheValue) : Async unit :=
  fun w => (Resolved tt,
            setRedis (RedisClient.setEx (clock w) key seconds v (redis w)) w).

Definition sAdd (member : Z) : Async unit :=
  fun w => (Resolved tt, setRedis (RedisClient.sAdd member (redis w)) w).

Definition sRem (member : Z) : Async Z :=
  fun w => let '(r, n) := RedisClient.sRem member (redis w) in
           (Resolved n, setRedis r w).

Definition sMembers : Async (list Z) :=
  fun w => (Resolved (RedisClient.sMembers (redis w)), w).

End client.

(** [pool.execute], one function per statement text. *)
Module pool.

Definition executeInsertAttendance (userId d t : Z) : Async unit :=
  fun w =>
    let w1 := logSql (InsertAttendance userId d t) w in
    match MySQL.insertAttendance userId d t (mysql w1) with
    | Some db => (Resolved tt, setMysql db w1)
    | None => (Rejected ForeignKeyError, w1)
    end.

(** Resolves to [result.affectedRows]. *)
Definition executeUpdateCheckOut (t userId d : Z) : Async Z :=
  fun w =>
    let w1 := logSql (UpdateCheckOut t userId d) w in
    let '(db, affectedRows) := MySQL.updateCheckOut t userId d (mysql w1) in
    (Resolved affectedRows, setMysql db w1).

Definition executeSelectEmployeesIn (employeeIds : list Z) : Async (list Employee) :=
  fun w =>
    let w1 := logSql (SelectEmployeesIn employeeIds) w in
    (Resolved (MySQL.selectEmployeesIn employeeIds (mysql w1)), w1).

Definition executeSelectReport (startDate endDate : Z) : Async (list ReportRow) :=
  fun w =>
    let w1 := logSql (SelectReport startDate endDate) w in
    (Resolved (MySQL.selectReport startDate endDate (mysql w1)), w1).

End pool.

(** [emailQueue.add("late-notification", data)]: rejects when the queue's
    backing store cannot be reached. *)
Definition emailQueue_add (j : Job) : Async unit :=
  fun w => if queueReady w then (Resolved tt, pushJob j w)
           else (Rejected QueueError, w).

(** [!!v] for a value read back from Redis: a missing key is [null]; the
    stored strings are never empty. *)
Definition truthy (v : option CacheValue) : bool :=
  match v with Some _ => true | None => false end.

(** [JSON.parse] of a stored value. *)
Definition JSON_parse (v : CacheValue) : Async Report :=
  match v with
  | Json report => ret report
  | IsoString _ => throw SyntaxError
  end.

(** ** attendanceService.js *)

Record CheckInResult := {
  message : string;
  checkInTime : Z;
  isLate : bool
}.

Record CheckOutResult := {
  checkOutMessage : string;
  checkOutTime : Z
}.

Module AttendanceService.

Definition getTodayDate : Async Z :=
  fun w => (Resolved (Clock.getTodayDate (clock w)), w).

Definition hasCheckedInToday (userId d : Z) : Async bool :=
  let cacheKey := CheckinKey userId d in
  await existingCheckin <- client.get cacheKey;
  ret (truthy existingCheckin).

Definition recordCheckIn (userId d checkInTime : Z) : Async unit :=
  await _r <- pool.executeInsertAttendance userId d checkInTime;
  let cacheKey := CheckinKey userId d in
  await _s <- client.setEx cacheKey 86400 (IsoString checkInTime);
  client.sAdd userId.

Definition recordCheckOut (userId d checkOutTime : Z) : Async unit :=
  await affectedRows <- pool.executeUpdateCheckOut checkOutTime userId d;
  if affectedRows =? 0 then
    throw (Error "No check-in record found for today")
  else
    await _removed <- client.sRem userId;
    ret tt.

Definition queueLateNotification (employeeId : Z) (employeeName : string)
    (checkInTime minutesLate : Z) : Async unit :=
  emailQueue_add
    {| employeeId := employeeId; employeeName := employeeName;
       jobCheckInTime := checkInTime; minutesLate := minutesLate |}.

Definition getCurrentEmployeesInOffice : Async (list Employee) :=
  await employeeIds <- client.sMembers;
  if (Z.of_nat (length employeeIds) =? 0) then
    ret []
  else
    await rows <- pool.executeSelectEmployeesIn employeeIds;
    ret rows.

Definition getAttendanceReport (startDate endDate : Z) : Async Report :=
  let cacheKey := ReportKey startDate endDate in
  await cachedReport <- client.get cacheKey;
  match cachedReport with
  | Some cached => JSON_parse cached
  | None =>
      await rows <- pool.executeSelectReport startDate endDate;
      let report :=
        {| startDate := startDate; endDate := endDate; records := rows |} in
      await _s <- client.setEx cacheKey 3600 (Json report);
      ret report
  end.

(** [today] and [checkInTime] are two readings of the clock made one after
    the other; they are taken at the same instant. *)
Definition checkIn (cfg : Config) (userId : Z) (userName : string)
    : Async CheckInResult :=
  await today <- getTodayDate;
  await checkInTime <- newDate;
  await already <- hasCheckedInToday userId today;
  if already then
    throw (Error "Already checked in today")
  else
    await _r <- recordCheckIn userId today checkInTime;
    let late := Clock.isLate cfg checkInTime in
    await _q <-
      (if late then
         let minutesLate := Clock.calculateMinutesLate cfg checkInTime in
         queueLateNotification userId userName checkInTime minutesLate
       else ret tt);
    ret {| message := "Checked in successfully";
           checkInTime := checkInTime;
           isLate := late |}.

Definition checkOut (userId : Z) : Async CheckOutResult :=
  await today <- getTodayDate;
  await checkOutTime <- newDate;
  await _r <- recordCheckOut userId today checkOutTime;
  ret {| checkOutMessage := "Checked out successfully";
         checkOutTime := checkOutTime |}.

End AttendanceService.

(** ** attendanceController.js *)

Inductive Response (A : Type) :=
| Ok (payload : A)
| Status (code : Z) (error : string).
Arguments Ok {A} payload.
Arguments Status {A} code error.

Definition hasMessage (e : Exception) (m : string) : bool :=
  match e with
  | Error m' => String.eqb m' m
  | _ => false
  end.

Module AttendanceController.

Definition checkIn (cfg : Config) (userId : Z) (userName : string)
    (w : World) : Response CheckInResult * World :=
  match AttendanceService.checkIn cfg userId userName w with
  | (Resolved result, w') => (Ok result, w')
  | (Rejected error, w') =>
      if hasMessage error "Already checked in today"
      then (Status 400 "Already checked in today", w')
      else (Status 500 "Check-in failed", w')
  end.

Definition checkOut (userId : Z) (w : World) : Response CheckOutResult * World :=
  match AttendanceService.checkOut userId w with
  | (Resolved result, w') => (Ok result, w')
  | (Rejected error, w') =>
      if hasMessage error "No check-in record found for today"
      then (Status 400 "No check-in record found for today", w')
      else (Status 500 "Check-out failed", w')
  end.

Definition getCurrentEmployees (w : World) : Response (list Employee) * World :=
  match AttendanceService.getCurrentEmployeesInOffice w with
  | (Resolved employeesInOffice, w') => (Ok employeesInOffice, w')
  | (Rejected _, w') => (Status 500 "Failed to get current employees", w')
  end.

(** [req.query.startDate] and [req.query.endDate]; [None] is a missing or
    empty parameter, and a parameter that is present denotes a date. *)
Definition getReports (startDate endDate : option Z) (w : World)
    : Response Report * World :=
  match startDate, endDate with
  | Some s, Some e =>
      match AttendanceService.getAttendanceReport s e w with
      | (Resolved report, w') => (Ok report, w')
      | (Rejected _, w') => (Status 500 "Failed to generate report", w')
      end
  | _, _ => (Status 400 "Start date and end date are required", w)
  end.

End AttendanceController.

(** ** Concurrent check-in requests

    Node runs the code between two [await]s without interruption, and each
    awaited call on Redis, MySQL or the queue is atomic on its server; other
    requests may run while a call is pending. A pending [checkIn] is
    therefore a record of its local variables and of the [await] it is
    suspended at, and [resume] runs it up to the next one. *)

Inductive CheckInStage :=
| AwaitHasCheckedIn
| AwaitInsert
| AwaitSetEx
| AwaitSAdd
| AwaitQueue
| Settled (outcome : Outcome CheckInResult).

Record CheckInCall := {
  callUserId : Z;
  callUserName : string;
  callToday : Z;
  callCheckInTime : Z;
  stage : CheckInStage
}.

Module Concurrent.

Definition moveTo (st : CheckInStage) (c : CheckInCall) : CheckInCall :=
  {| callUserId := callUserId c; callUserName := callUserName c;
     callToday := callToday c; callCheckInTime := callCheckInTime c;
     stage := st |}.

(** The request arrives: [today] and [checkInTime] are read, and the call
    suspends at [hasCheckedInToday]. *)
Definition start (userId : Z) (userName : string) (w : World) : CheckInCall :=
  {| callUserId := userId; callUserName := userName;
     callToday := Clock.getTodayDate (clock w); callCheckInTime := clock w;
     stage := AwaitHasCheckedIn |}.

Definition result (cfg : Config) (c : CheckInCall) : CheckInResult :=
  {| message := "Checked in successfully";
     checkInTime := callCheckInTime c;
     isLate := Clock.isLate cfg (callCheckInTime c) |}.

(** Perform the awaited call [m]; on success continue at the stage [k]
    computes, on failure the call is rejected. *)
Definition awaiting {A} (m : Async A) (k : A -> CheckInStage)
    (c : CheckInCall) (w : World) : CheckInCall * World :=
  match m w with
  | (Resolved a, w') => (moveTo (k a) c, w')
  | (Rejected e, w') => (moveTo (Settled (Rejected e)) c, w')
  end.

Definition resume (cfg : Config) (c : CheckInCall) (w : World)
    : CheckInCall * World :=
  match stage c with
  | AwaitHasCheckedIn =>
      awaiting (AttendanceService.hasCheckedInToday (callUserId c) (callToday c))
        (fun already =>
           if already
           then Settled (Rejected (Error "Already checked in today"))
           else AwaitInsert) c w
  | AwaitInsert =>
      awaiting (pool.executeInsertAttendance (callUserId c) (callToday c)
                  (callCheckInTime c))
        (fun _ => AwaitSetEx) c w
  | AwaitSetEx =>
      awaiting (client.setEx (CheckinKey (callUserId c) (callToday c)) 86400
                  (IsoString (callCheckInTime c)))
        (fun _ => AwaitSAdd) c w
  | AwaitSAdd =>
      awaiting (client.sAdd (callUserId c))
        (fun _ =>
           if Clock.isLate cfg (callCheckInTime c)
           then AwaitQueue
           else Settled (Resolved (result cfg c))) c w
  | AwaitQueue =>
      awaiting (AttendanceService.queueLateNotification (callUserId c)
                  (callUserName c) (callCheckInTime c)
                  (Clock.calculateMinutesLate cfg (callCheckInTime c)))
        (fun _ => Settled (Resolved (result cfg c))) c w
  | Settled _ => (c, w)
  end.

(** Run one call alone from its current stage. *)
Fixpoint resumeN (cfg : Config) (n : nat) (c : CheckInCall) (w : World)
    : CheckInCall * World :=
  match n with
  | O => (c, w)
  | S n' => let '(c', w') := resume cfg c w in resumeN cfg n' c' w'
  end.

(** A schedule names, step by step, the pending call that is resumed and the
    instant at which its awaited call is served. *)
Fixpoint run (cfg : Config) (schedule : list (nat * Z))
    (calls : list CheckInCall) (w : World) : list CheckInCall * World :=
  match schedule with
  | [] => (calls, w)
  | (i, t) :: rest =>
      match calls !! i with
      | Some c =>
          let '(c', w') := resume cfg c (setClock t w) in
          run cfg rest (<[i := c']> calls) w'
      | None => run cfg rest calls w
      end
  end.

Definition succeeded (c : CheckInCall) : bool :=
  match stage c with
  | Settled (Resolved _) => true
  | _ => false
  end.

End Concurrent.

(** ** Notions used in the statements *)

(** [UNIQUE(employee_id, date)] *)
Definition uniqueKey (rows : list Attendance) : Prop :=
  NoDup (map (fun a => (employee_id a, date a)) rows).

(** The attendance rows recorded for one employee and day. *)
Definition recordsFor (userId d : Z) (db : Database) : list Attendance :=
  List.filter (MySQL.hasKey userId d) (attendance db).

Definition hasEmployee (userId : Z) (db : Database) : bool :=
  existsb (fun e => id e =? userId) (employees db).

(** A pending call is suspended at the queue only if its check-in is late. *)
Definition lateAtQueue (cfg : Config) (c : CheckInCall) : Prop :=
  stage c = AwaitQueue -> Clock.isLate cfg (callCheckInTime c) = true.

Definition jobsNonNegative (w : World) : Prop :=
  Forall (fun j => 0 <= minutesLate j) (emailQueue w).

(** The instant that reads [h:m:s] on the local clock of day [day]. *)
Definition localInstant (cfg : Config) (day h m s : Z) : Z :=
  day * Clock.msPerDay
  + (h * Clock.msPerHour + m * Clock.msPerMinute + s * Clock.msPerSecond)
  - tzOffset cfg.

(** The world after the three writes of [recordCheckIn]. *)
Definition recorded (userId today t : Z) (db : Database) (w : World) : World :=
  setRedis
    (RedisClient.sAdd userId
       (RedisClient.setEx t (CheckinKey userId today) 86400 (IsoString t)
          (redis w)))
    (setMysql db (logSql (InsertAttendance userId today t) w)).

Definition lateJob (cfg : Config) (userId : Z) (userName : string) (t : Z) : Job :=
  {| employeeId := userId; employeeName := userName; jobCheckInTime := t;
     minutesLate := Clock.calculateMinutesLate cfg t |}.

Definition freshReport (startDate endDate : Z) (db : Database) : Report :=
  {| startDate := startDate; endDate := endDate;
     records := MySQL.selectReport startDate endDate db |}.

(** ** Sample worlds *)

Definition utcDefault : Config := {| WORK_START_TIME := None; tzOffset := 0 |}.

(** The employees of the seed file [001_sample_employees], no attendance
    rows, empty Redis and queue. *)
Definition seed : Database :=
  {| collation := String.compare;
     employees :=
       [ {| id := 1; name := "Sarah Johnson"; department := "Management" |};
         {| id := 2; name := "Tom Wilson"; department := "IT" |};
         {| id := 3; name := "Alice Smith"; department := "IT" |};
         {| id := 4; name := "Bob Davis"; department := "Design" |};
         {| id := 5; name := "Charlie Brown"; department := "IT" |};
         {| id := 6; name := "Diana Martinez"; department := "IT" |};
         {| id := 7; name := "Eve Anderson"; department := "Marketing" |};
         {| id := 8; name := "Frank Miller"; department := "HR" |};
         {| id := 9; name := "Grace Lee"; department := "Finance" |};
         {| id := 10; name := "Henry Garcia"; department := "IT" |} ];
     attendance := [] |}.

Definition office : World :=
  {| clock := 0; mysql := seed; sqlLog := [];
     redis := {| keyspace := ∅; employees_in_office := ∅ |};
     emailQueue := []; queueReady := true |}.

(** 2024-01-15 is day 19737; an instant of that day on the UTC clock. *)
Definition jan15 (h m s : Z) : Z := localInstant utcDefault 19737 h m s.

(** The seed file also inserts attendance rows for the current day, without
    any Redis key. *)
Definition seededToday : World :=
  {| clock := 0;
     mysql := MySQL.withAttendance seed
       [ {| employee_id := 2; date := 19737;
            check_in_time := Some (jan15 8 45 0); check_out_time := None |};
         {| employee_id := 3; date := 19737;
            check_in_time := Some (jan15 9 15 0); check_out_time := None |};
         {| employee_id := 4; date := 19737;
            check_in_time := Some (jan15 8 30 0); check_out_time := None |};
         {| employee_id := 5; date := 19737;
            check_in_time := Some (jan15 9 20 0); check_out_time := None |} ];
     sqlLog := [];
     redis := {| keyspace := ∅; employees_in_office := ∅ |};
     emailQueue := []; queueReady := true |}.

Definition queueDown (w : World) : World :=
  {| clock := clock w; mysql := mysql w; sqlLog := sqlLog w; redis := redis w;
     emailQueue := emailQueue w; queueReady := false |}.

(** Employee 42 is in the presence set but has no row in [employees]. *)
Definition strayMember : World :=
  setRedis {| keyspace := ∅; employees_in_office := {[7; 42]} |} office.

(** Two requests of employee 7 arrive one millisecond apart at 09:15; both
    read the (absent) check-in key before either has written it. *)
Definition doubleClick : list CheckInCall :=
  [ Concurrent.start 7 "Eve Anderson" (setClock (jan15 9 15 0) office);
    Concurrent.start 7 "Eve Anderson" (setClock (jan15 9 15 0 + 1) office) ].

Definition racingSchedule : list (nat * Z) :=
  [ (0%nat, jan15 9 15 0 + 2); (1%nat, jan15 9 15 0 + 3);
    (0%nat, jan15 9 15 0 + 4); (0%nat, jan15 9 15 0 + 5);
    (0%nat, jan15 9 15 0 + 6); (0%nat, jan15 9 15 0 + 7);
    (1%nat, jan15 9 15 0 + 8); (1%nat, jan15 9 15 0 + 9);
    (1%nat, jan15 9 15 0 + 10); (1%nat, jan15 9 15 0 + 11) ].

(** ** Regular expressions

    The pattern language [validateLoginRequest] needs: character classes,
    sequence, alternative and repetition, matched against the whole subject
    (the pattern is anchored with [^] and [$]). A JavaScript string is the
    list of its code units; the code units representable here are those
    below 256. *)

Inductive Regex :=
| Never
| Epsilon
| Class (p : ascii -> bool)
| Seq (r1 r2 : Regex)
| Alt (r1 r2 : Regex)
| Star (r : Regex).

Module RegExp.

(** [r+] *)
Definition Plus (r : Regex) : Regex := Seq r (Star r).

Fixpoint nullable (r : Regex) : bool :=
  match r with
  | Never => false
  | Epsilon => true
  | Class _ => false
  | Seq r1 r2 => nullable r1 && nullable r2
  | Alt r1 r2 => nullable r1 || nullable r2
  | Star _ => true
  end.

(** The pattern for what may follow after [a] has been read. *)
Fixpoint deriv (a : ascii) (r : Regex) : Regex :=
  match r with
  | Never => Never
  | Epsilon => Never
  | Class p => if p a then Epsilon else Never
  | Seq r1 r2 =>
      if nullable r1
      then Alt (Seq (deriv a r1) r2) (deriv a r2)
      else Seq (deriv a r1) r2
  | Alt r1 r2 => Alt (deriv a r1) (deriv a r2)
  | Star r1 => Seq (deriv a r1) (Star r1)
  end.

Fixpoint matchAll (r : Regex) (s : list ascii) : bool :=
  match s with
  | [] => nullable r
  | a :: s' => matchAll (deriv a r) s'
  end.

(** [/^r$/.test(s)] *)
Definition test (r : Regex) (s : string) : bool :=
  matchAll r (list_ascii_of_string s).

(** [\s] on code units below 256: TAB, LF, VT, FF, CR, space and the
    no-break space. *)
Definition whitespace (c : ascii) : bool :=
  let n := nat_of_ascii c in
  existsb (Nat.eqb n) [9; 10; 11; 12; 13; 32; 160]%nat.

(** [[^\s@]] *)
Definition notSpaceNorAt (c : ascii) : bool :=
  negb (whitespace c) && negb (Ascii.eqb c "@").

(** [/^[^\s@]+@[^\s@]+\.[^\s@]+$/] *)
Definition emailRegex : Regex :=
  Seq (Plus (Class notSpaceNorAt))
    (Seq (Class (Ascii.eqb "@"))
       (Seq (Plus (Class notSpaceNorAt))
          (Seq (Class (Ascii.eqb "."))
             (Plus (Class notSpaceNorAt))))).

End RegExp.

(** The language of a pattern. *)
Inductive matches : Regex -> list ascii -> Prop :=
| m_epsilon : matches Epsilon []
| m_class p a : p a = true -> matches (Class p) [a]
| m_seq r1 r2 s1 s2 : matches r1 s1 -> matches r2 s2 -> matches (Seq r1 r2) (s1 ++ s2)
| m_alt_l r1 r2 s : matches r1 s -> matches (Alt r1 r2) s
| m_alt_r r1 r2 s : matches r2 s -> matches (Alt r1 r2) s
| m_star_nil r : matches (Star r) []
| m_star_app r s1 s2 : matches r s1 -> matches (Star r) s2 -> matches (Star r) (s1 ++ s2).

(** ** authService.js: sessions

    The login query selects [id, name, email, department]: a row of
    [employees] with its [email] column. Sessions are the Redis keys
    [`session:${token}`]; they share no prefix with the check-in and report
    keys and are kept as a map of their own, from the token to the stored
    user and the instant the key expires at. *)

Record EmployeeRow := {
  employee : Employee;
  email : string
}.

Record LoginResult := {
  token : string;
  user : EmployeeRow
}.

Record Server := {
  app : World;
  employeeRows : list EmployeeRow;
  sessions : gmap string (EmployeeRow * Z)
}.

(** [parseInt(process.env.SESSION_EXPIRY)]; [None] is [NaN]. *)
Record AuthConfig := {
  SESSION_EXPIRY : option Z
}.

Definition setApp (w : World) (s : Server) : Server :=
  {| app := w; employeeRows := employeeRows s; sessions := sessions s |}.

Definition setSessions (m : gmap string (EmployeeRow * Z)) (s : Server) : Server :=
  {| app := app s; employeeRows := employeeRows s; sessions := m |}.

Module AuthService.

(** [`token_${timestamp}_${userId}_${random}`]; [random] is the hexadecimal
    text of the sixteen bytes drawn by [crypto.randomBytes]. *)
Definition generateToken (timestamp userId : Z) (random : string) : string :=
  "token_" +:+ pretty timestamp +:+ "_" +:+ pretty userId +:+ "_" +:+ random.

(** [WHERE email = ?], compared under the collation of the table. *)
Definition emailEquals (db : Database) (e1 e2 : string) : bool :=
  match collation db e1 e2 with
  | Eq => true
  | _ => false
  end.

(** [rows[0] || null] *)
Definition findEmployeeByEmail (e : string) (s : Server) : option EmployeeRow :=
  head (List.filter (fun r => emailEquals (mysql (app s)) (email r) e)
          (employeeRows s)).

(** [parseInt(process.env.SESSION_EXPIRY) || 28800]: [NaN] and [0] are
    falsy. *)
Definition sessionExpiry (cfg : AuthConfig) : Z :=
  match SESSION_EXPIRY cfg with
  | Some n => if n =? 0 then 28800 else n
  | None => 28800
  end.

(** SETEX refuses an expiry that is not positive. *)
Definition createSession (cfg : AuthConfig) (u : EmployeeRow) (random : string)
    (s : Server) : Outcome string * Server :=
  let token := generateToken (clock (app s)) (id (employee u)) random in
  let seconds := sessionExpiry cfg in
  if seconds <=? 0 then
    (Rejected (Error "ERR invalid expire time in 'setex' command"), s)
  else
    (Resolved token,
     setSessions (<[token := (u, clock (app s) + seconds * 1000)]> (sessions s)) s).

(** [sessionData ? JSON.parse(sessionData) : null] *)
Definition getSession (token : string) (s : Server) : option EmployeeRow :=
  match sessions s !! token with
  | Some (u, expiresAt) =>
      if clock (app s) <=? expiresAt then Some u else None
  | None => None
  end.

Definition destroySession (token : string) (s : Server) : Server :=
  setSessions (delete token (sessions s)) s.

(** [!v] for an optional string: absent or empty. *)
Definition falsy (v : option string) : bool :=
  match v with
  | Some EmptyString => true
  | Some _ => false
  | None => true
  end.

Definition login (cfg : AuthConfig) (e : option string) (random : string)
    (s : Server) : Outcome LoginResult * Server :=
  match e with
  | Some address =>
      if falsy e then (Rejected (Error "Email is required"), s)
      else
        match findEmployeeByEmail address s with
        | None => (Rejected (Error "Employee not found"), s)
        | Some u =>
            match createSession cfg u random s with
            | (Resolved token, s') =>
                (Resolved {| token := token; user := u |}, s')
            | (Rejected err, s') => (Rejected err, s')
            end
        end
  | None => (Rejected (Error "Email is required"), s)
  end.

Definition logoutMessage : string := "Logged out successfully".

Definition logout (token : option string) (s : Server) : string * Server :=
  match token with
  | Some t => if falsy token then (logoutMessage, s)
              else (logoutMessage, destroySession t s)
  | None => (logoutMessage, s)
  end.

End AuthService.

(** ** middleware/auth.js *)

Module Middleware.

(** [authenticate]: the user put in [req.user] when [next()] is called, or
    the status and error it answers with. *)
Definition authenticate (authorization : option string) (s : Server)
    : EmployeeRow + Z * string :=
  match authorization with
  | Some token =>
      if AuthService.falsy authorization
      then inr (401, "Authentication token required")
      else
        match AuthService.getSession token s with
        | Some u => inl u
        | None => inr (401, "Invalid or expired token")
        end
  | None => inr (401, "Authentication token required")
  end.

(** [validateLoginRequest]: [None] is [next()]; the argument is
    [req.body.email] when it is a string. *)
Definition validateLoginRequest (e : option string) : option (Z * string) :=
  match e with
  | Some address =>
      if AuthService.falsy e then Some (400, "Valid email is required")
      else if negb (RegExp.test RegExp.emailRegex address)
      then Some (400, "Invalid email format")
      else None
  | None => Some (400, "Valid email is required")
  end.

End Middleware.

(** ** authController.js *)

Module AuthController.

Definition login (cfg : AuthConfig) (e : option string) (random : string)
    (s : Server) : Response LoginResult * Server :=
  match AuthService.login cfg e random s with
  | (Resolved result, s') => (Ok result, s')
  | (Rejected error, s') =>
      if hasMessage error "Email is required"
      then (Status 400 "Email is required", s')
      else if hasMessage error "Employee not found"
      then (Status 404 "Employee not found", s')
      else (Status 500 "Internal server error", s')
  end.

Definition logout (authorization : option string) (s : Server)
    : Response string * Server :=
  let '(message, s') := AuthService.logout authorization s in
  (Ok message, s').

End AuthController.

(** ** routes/auth.js and routes/attendance.js *)

Module Routes.

(** [router.post("/login", validateLoginRequest, authController.login)] *)
Definition login (cfg : AuthConfig) (e : option string) (random : string)
    (s : Server) : Response LoginResult * Server :=
  match Middleware.validateLoginRequest e with
  | Some (code, error) => (Status code error, s)
  | None => AuthController.login cfg e random s
  end.

(** [router.post("/logout", authController.logout)] *)
Definition logout := AuthController.logout.

(** A route of the form [router.verb(path, authenticate, handler)]. *)
Definition authenticated {A} (handler : EmployeeRow -> World -> Response A * World)
    (authorization : option string) (s : Server) : Response A * Server :=
  match Middleware.authenticate authorization s with
  | inl u => let '(response, w') := handler u (app s) in (response, setApp w' s)
  | inr (code, error) => (Status code error, s)
  end.

Definition checkin (cfg : Config) :=
  authenticated (fun u =>
    AttendanceController.checkIn cfg (id (employee u)) (name (employee u))).

Definition checkout :=
  authenticated (fun u => AttendanceController.checkOut (id (employee u))).

Definition current :=
  authenticated (fun _ => AttendanceController.getCurrentEmployees).

Definition reports (startDate endDate : option Z) :=
  authenticated (fun _ => AttendanceController.getReports startDate endDate).

End Routes.

(** The server at a later instant [t]. *)
Definition laterAt (t : Z) (s : Server) : Server :=
  setApp (setClock t (app s)) s.

(** The rows of [employees] of the seed file, with their addresses. *)
Definition seedServer : Server :=
  {| app := office;
     employeeRows :=
       [ {| employee := {| id := 1; name := "Sarah Johnson"; department := "Management" |};
            email := "sarah.johnson@company.com" |};
         {| employee := {| id := 2; name := "Tom Wilson"; department := "IT" |};
            email := "tom.wilson@company.com" |};
         {| employee := {| id := 3; name := "Alice Smith"; department := "IT" |};
            email := "alice.smith@company.com" |};
         {| employee := {| id := 7; name := "Eve Anderson"; department := "Marketing" |};
            email := "eve.anderson@company.com" |} ];
     sessions := ∅ |}.

Definition eightHours : AuthConfig := {| SESSION_EXPIRY := None |}.

(** ** Requests served one after the other *)

Inductive Request :=
| CheckInRequest (userId : Z) (userName : string)
| CheckOutRequest (userId : Z)
| CurrentRequest
| ReportRequest (startDate endDate : Z).

(** The world after the service has served a request that arrives at
    instant [t]. *)
Definition handle (cfg : Config) (t : Z) (r : Request) (w : World) : World :=
  match r with
  | CheckInRequest userId userName =>
      snd (AttendanceService.checkIn cfg userId userName (setClock t w))
  | CheckOutRequest userId =>
      snd (AttendanceService.checkOut userId (setClock t w))
  | CurrentRequest =>
      snd (AttendanceService.getCurrentEmployeesInOffice (setClock t w))
  | ReportRequest startDate endDate =>
      snd (AttendanceService.getAttendanceReport startDate endDate (setClock t w))
  end.

Fixpoint handleAll (cfg : Config) (trace : list (Z * Request)) (w : World) : World :=
  match trace with
  | [] => w
  | (t, r) :: rest => handleAll cfg rest (handle cfg t r w)
  end.

(** The instants of a trace do not go back, starting from [now]. *)
Fixpoint inOrder (now : Z) (trace : list (Z * Request)) : Prop :=
  match trace with
  | [] => True
  | (t, _) :: rest => now <= t /\ inOrder t rest
  end.

(** The check-in key of an employee and day is set and does not expire
    before the day is over. *)
Definition claimed (userId d : Z) (w : World) : Prop :=
  exists v expiresAt,
    keyspace (redis w) !! CheckinKey userId d = Some (v, expiresAt)
    /\ (d + 1) * Clock.msPerDay <= expiresAt.

(** What the stores look like when every attendance row was written by a
    check-in of the service, no later than [now]. *)
Record Consistent (now : Z) (w : World) : Prop := {
  unique_rows : uniqueKey (attendance (mysql w));
  rows_of_employees :
    forall a, a ∈ attendance (mysql w) ->
              hasEmployee (employee_id a) (mysql w) = true;
  rows_checked_in :
    forall a, a ∈ attendance (mysql w) ->
              exists t, check_in_time a = Some t /\ t <= now
                        /\ Clock.getTodayDate t = date a;
  rows_claimed :
    forall a, a ∈ attendance (mysql w) -> claimed (employee_id a) (date a) w;
  out_after_in :
    forall a tIn tOut, a ∈ attendance (mysql w) ->
                       check_in_time a = Some tIn -> check_out_time a = Some tOut ->
                       tIn <= tOut <= now;
  present_are_open :
    forall userId, userId ∈ employees_in_office (redis w) ->
                   exists a, a ∈ attendance (mysql w)
                             /\ employee_id a = userId
                             /\ check_out_time a = None;
  jobs_non_negative : jobsNonNegative w
}.

(** ** WORK_START_TIME with a seconds field

    [isLate] splits the text at ":" and keeps the first two fields;
    [calculateMinutesLate] gives the whole text to the Date parser. For a
    text HH:MM in range the two read the same start. For a text HH:MM:SS
    [isLate] still counts from HH:MM:00 while [calculateMinutesLate] counts
    from HH:MM:SS. *)

(** WORK_START_TIME is unset or reads HH:MM, hour 0..23 and minute 0..59. *)
Definition validStart (cfg : Config) : Prop :=
  0 <= fst (Clock.workStartTime cfg) <= 23
  /\ 0 <= snd (Clock.workStartTime cfg) <= 59.

Module WithSeconds.

(** [calculateMinutesLate] when WORK_START_TIME reads HH:MM:SS: [cfg] holds
    the first two fields, [seconds] is the third (0..59). *)
Definition calculateMinutesLate (cfg : Config) (seconds : Z) (checkInTime : Z) : Z :=
  let startTime :=
    Clock.parseDateTime cfg (Clock.toDateString cfg checkInTime)
      (Clock.workStartTime cfg)
    + seconds * Clock.msPerSecond in
  (checkInTime - startTime) / (1000 * 60).

(** [checkIn] under such a text. *)
Definition checkIn (cfg : Config) (seconds : Z) (userId : Z) (userName : string)
    : Async CheckInResult :=
  await today <- AttendanceService.getTodayDate;
  await checkInTime <- newDate;
  await already <- AttendanceService.hasCheckedInToday userId today;
  if already then
    throw (Error "Already checked in today")
  else
    await _r <- AttendanceService.recordCheckIn userId today checkInTime;
    let late := Clock.isLate cfg checkInTime in
    await _q <-
      (if late then
         let minutesLate := calculateMinutesLate cfg seconds checkInTime in
         AttendanceService.queueLateNotification userId userName checkInTime
           minutesLate
       else ret tt);
    ret {| message := "Checked in successfully";
           checkInTime := checkInTime;
           isLate := late |}.

End WithSeconds.

(** WORK_START_TIME=09:00:30, on the UTC clock. *)
Definition nineAndThirtySeconds : Config :=
  {| WORK_START_TIME := Some (9, 0); tzOffset := 0 |}.

(** WORK_START_TIME=08:30, on the UTC clock. *)
Definition halfPastEight : Config :=
  {| WORK_START_TIME := Some (8, 30); tzOffset := 0 |}.

(** * Properties *)

(** *** Lateness *)

Section Lateness.
Context (cfg : Config).

Lemma day_split (t : Z) :
  t + tzOffset cfg =
  Clock.toDateString cfg t * Clock.msPerDay + Clock.timeOfDay cfg t.
Proof.
  unfold Clock.toDateString, Clock.timeOfDay.
  rewrite (Z.mul_comm _ Clock.msPerDay). apply Z.div_mod. discriminate.
Qed.

Lemma timeOfDay_range (t : Z) : 0 <= Clock.timeOfDay cfg t < Clock.msPerDay.
Proof. unfold Clock.timeOfDay. apply Z.mod_pos_bound. reflexivity. Qed.

(** [setHours] on a copy of the date and parsing the printed local date
    followed by "HH:MM" denote the same instant. *)
Lemma setHours_parseDateTime (t h m : Z) :
  Clock.setHours cfg t h m 0 0 =
  Clock.parseDateTime cfg (Clock.toDateString cfg t) (h, m).
Proof.
  unfold Clock.setHours, Clock.parseDateTime. cbn [fst snd].
  pose proof (day_split t). lia.
Qed.

Lemma isLate_after_start (t : Z) :
  Clock.isLate cfg t = true <-> Clock.startOfDay cfg t < t.
Proof.
  unfold Clock.isLate, Clock.startOfDay.
  destruct (Clock.workStartTime cfg) as [h m].
  rewrite setHours_parseDateTime. rewrite Z.gtb_ltb. apply Z.ltb_lt.
Qed.

Lemma since_start (t : Z) :
  t - Clock.startOfDay cfg t =
  Clock.timeOfDay cfg t
  - (fst (Clock.workStartTime cfg) * Clock.msPerHour
     + snd (Clock.workStartTime cfg) * Clock.msPerMinute).
Proof.
  unfold Clock.startOfDay, Clock.parseDateTime.
  pose proof (day_split t). lia.
Qed.

Lemma minutesLate_nonneg_of_late (t : Z) :
  Clock.isLate cfg t = true -> 0 <= Clock.calculateMinutesLate cfg t.
Proof.
  intros H%isLate_after_start.
  unfold Clock.calculateMinutesLate. fold (Clock.startOfDay cfg t).
  apply Z.div_pos; lia.
Qed.

Lemma minutesLate_negative_before_start (t : Z) :
  t < Clock.startOfDay cfg t -> Clock.calculateMinutesLate cfg t < 0.
Proof.
  intros H. unfold Clock.calculateMinutesLate. fold (Clock.startOfDay cfg t).
  apply Z.div_lt_upper_bound; lia.
Qed.

End Lateness.

Lemma localInstant_timeOfDay (cfg : Config) (day h m s : Z) :
  0 <= h * Clock.msPerHour + m * Clock.msPerMinute + s * Clock.msPerSecond
     < Clock.msPerDay ->
  Clock.timeOfDay cfg (localInstant cfg day h m s) =
  h * Clock.msPerHour + m * Clock.msPerMinute + s * Clock.msPerSecond.
Proof.
  intros Hr. unfold Clock.timeOfDay, localInstant.
  replace (_ - tzOffset cfg + tzOffset cfg)
    with ((h * Clock.msPerHour + m * Clock.msPerMinute + s * Clock.msPerSecond)
          + day * Clock.msPerDay) by lia.
  rewrite Z.mod_add by discriminate. apply Z.mod_small. exact Hr.
Qed.

(** C4 (as amended). With the working day starting at 09:00, a check-in is
    late exactly when its local time of day is strictly after 09:00, and
    [calculateMinutesLate] is the floor of (time of day - 09:00) in minutes
    with no clamp: it is non-negative exactly from 09:00 on (so on every late
    check-in it coincides with the clamped value) and negative before. On any
    day, 09:00:00 is not late, 09:00:01 is late by 0 minutes and 09:15:00 is
    late by 15 minutes. *)
Theorem lateness_at_nine (cfg : Config) (t day : Z) :
  Clock.workStartTime cfg = (9, 0) ->
  (Clock.isLate cfg t = true <-> 9 * Clock.msPerHour < Clock.timeOfDay cfg t)
  /\ Clock.calculateMinutesLate cfg t
     = (Clock.timeOfDay cfg t - 9 * Clock.msPerHour) / Clock.msPerMinute
  /\ (0 <= Clock.calculateMinutesLate cfg t
      <-> 9 * Clock.msPerHour <= Clock.timeOfDay cfg t)
  /\ (Clock.isLate cfg t = true ->
      Clock.calculateMinutesLate cfg t
      = Z.max 0 ((t - Clock.startOfDay cfg t) / Clock.msPerMinute))
  /\ Clock.isLate cfg (localInstant cfg day 9 0 0) = false
  /\ (Clock.isLate cfg (localInstant cfg day 9 0 1) = true
      /\ Clock.calculateMinutesLate cfg (localInstant cfg day 9 0 1) = 0)
  /\ (Clock.isLate cfg (localInstant cfg day 9 15 0) = true
      /\ Clock.calculateMinutesLate cfg (localInstant cfg day 9 15 0) = 15).
Proof.
  intros Hcfg.
  assert (Hlate : forall u, Clock.isLate cfg u = true
                            <-> 9 * Clock.msPerHour < Clock.timeOfDay cfg u).
  { intros u. rewrite isLate_after_start.
    pose proof (since_start cfg u) as Hs. rewrite Hcfg in Hs. cbn [fst snd] in Hs.
    lia. }
  assert (Hmin : forall u, Clock.calculateMinutesLate cfg u
                 = (Clock.timeOfDay cfg u - 9 * Clock.msPerHour) / Clock.msPerMinute).
  { intros u. unfold Clock.calculateMinutesLate. fold (Clock.startOfDay cfg u).
    rewrite since_start, Hcfg. cbn [fst snd]. f_equal; lia. }
  assert (Htod : forall h m s,
             0 <= h * Clock.msPerHour + m * Clock.msPerMinute + s * Clock.msPerSecond
               < Clock.msPerDay ->
             Clock.timeOfDay cfg (localInstant cfg day h m s)
             = h * Clock.msPerHour + m * Clock.msPerMinute + s * Clock.msPerSecond)
    by (intros; by apply localInstant_timeOfDay).
  split; [apply Hlate|]. split; [apply Hmin|].
  split.
  { rewrite Hmin. split.
    - intros H. destruct (Z.lt_ge_cases (Clock.timeOfDay cfg t) (9 * Clock.msPerHour))
        as [Hlt|Hge]; [|exact Hge].
      exfalso.
      assert ((Clock.timeOfDay cfg t - 9 * Clock.msPerHour) / Clock.msPerMinute < 0)
        by (apply Z.div_lt_upper_bound; [reflexivity | lia]).
      lia.
    - intros H. apply Z.div_pos; [lia | reflexivity]. }
  split.
  { intros H. pose proof (minutesLate_nonneg_of_late cfg t H) as Hnn.
    unfold Clock.calculateMinutesLate in *. fold (Clock.startOfDay cfg t) in *.
    change (1000 * 60) with Clock.msPerMinute in *. lia. }
  split.
  { apply not_true_is_false. rewrite Hlate, Htod by (vm_compute; split; congruence).
    vm_compute. congruence. }
  split.
  { split.
    - apply Hlate. rewrite Htod by (vm_compute; split; congruence). reflexivity.
    - rewrite Hmin, Htod by (vm_compute; split; congruence). reflexivity. }
  split.
  - apply Hlate. rewrite Htod by (vm_compute; split; congruence). reflexivity.
  - rewrite Hmin, Htod by (vm_compute; split; congruence). reflexivity.
Qed.

Lemma lateness_at_nine_witness :
  Clock.workStartTime utcDefault = (9, 0)
  /\ Clock.calculateMinutesLate utcDefault 32460000
     = (Clock.timeOfDay utcDefault 32460000 - 9 * Clock.msPerHour)
       / Clock.msPerMinute.
Proof.
  split; [reflexivity|].
  exact (proj1 (proj2 (lateness_at_nine utcDefault 32460000 0 eq_refl))).
Defined.

(** C4, the clamp: at 08:00 the check-in is not late and
    [calculateMinutesLate] returns -60, where the clamped value is 0. *)
Lemma minutesLate_not_clamped :
  Clock.isLate utcDefault (localInstant utcDefault 19737 8 0 0) = false
  /\ Clock.calculateMinutesLate utcDefault (localInstant utcDefault 19737 8 0 0) = -60
  /\ Z.max 0 ((localInstant utcDefault 19737 8 0 0
               - Clock.startOfDay utcDefault (localInstant utcDefault 19737 8 0 0))
              / Clock.msPerMinute) = 0
  /\ Clock.calculateMinutesLate utcDefault (localInstant utcDefault 19737 8 0 0)
     <> Z.max 0 ((localInstant utcDefault 19737 8 0 0
                  - Clock.startOfDay utcDefault (localInstant utcDefault 19737 8 0 0))
                 / Clock.msPerMinute).
Proof. repeat split; vm_compute; congruence. Qed.

(** *** Updating rows by key *)

Section UpdateByKey.
Context {A : Type} (f : A -> bool) (g : A -> A).
Hypothesis key_kept : forall a, f (g a) = f a.

Lemma update_absent (l : list A) :
  List.filter f l = [] -> map (fun a => if f a then g a else a) l = l.
Proof.
  induction l as [|a l IH]; cbn; [done|].
  destruct (f a) eqn:Ha; [discriminate|].
  intros H. by rewrite IH.
Qed.

Lemma filter_update (l : list A) :
  List.filter f (map (fun a => if f a then g a else a) l)
  = map g (List.filter f l).
Proof.
  induction l as [|a l IH]; cbn; [done|].
  destruct (f a) eqn:Ha.
  - rewrite key_kept, Ha. cbn. by rewrite IH.
  - by rewrite Ha.
Qed.

Lemma filter_nil_existsb (l : list A) :
  List.filter f l = [] <-> existsb f l = false.
Proof.
  induction l as [|a l IH]; cbn; [done|].
  destruct (f a); cbn; [split; discriminate | exact IH].
Qed.

End UpdateByKey.

Lemma hasKey_setCheckIn (userId d t : Z) (a : Attendance) :
  MySQL.hasKey userId d (MySQL.setCheckIn t a) = MySQL.hasKey userId d a.
Proof. reflexivity. Qed.

Lemma hasKey_setCheckOut (userId d t : Z) (a : Attendance) :
  MySQL.hasKey userId d (MySQL.setCheckOut t a) = MySQL.hasKey userId d a.
Proof. reflexivity. Qed.

Lemma hasKey_true (userId d : Z) (a : Attendance) :
  MySQL.hasKey userId d a = true <-> (employee_id a, date a) = (userId, d).
Proof.
  unfold MySQL.hasKey. rewrite andb_true_iff, !Z.eqb_eq.
  split; [intros [-> ->]; reflexivity | intros [= -> ->]; done].
Qed.

Lemma withAttendance_same (db : Database) :
  MySQL.withAttendance db (attendance db) = db.
Proof. by destruct db. Qed.

(** Under the uniqueness constraint an employee has at most one row a day. *)
Lemma uniqueKey_recordsFor (userId d : Z) (db : Database) :
  uniqueKey (attendance db) -> (length (recordsFor userId d db) <= 1)%nat.
Proof.
  unfold uniqueKey, recordsFor. generalize (attendance db) as rows.
  induction rows as [|a rows IH]; cbn; [lia|].
  rewrite NoDup_cons. intros [Hnotin Hnd].
  destruct (MySQL.hasKey userId d a) eqn:Ha; [|by apply IH].
  cbn. apply hasKey_true in Ha.
  assert (List.filter (MySQL.hasKey userId d) rows = []) as ->; [|cbn; lia].
  apply filter_nil_existsb, not_true_is_false. intros Hex.
  apply existsb_exists in Hex as (b & Hin & Hb). apply hasKey_true in Hb.
  apply Hnotin. rewrite Ha, <- Hb. apply list_elem_of_In in Hin.
  apply (list_elem_of_fmap_2 (fun a => (employee_id a, date a))), Hin.
Qed.

(** Both writing statements keep [UNIQUE(employee_id, date)]. *)
Lemma insertAttendance_uniqueKey (userId d t : Z) (db db' : Database) :
  MySQL.insertAttendance userId d t db = Some db' ->
  uniqueKey (attendance db) -> uniqueKey (attendance db').
Proof.
  unfold MySQL.insertAttendance, uniqueKey.
  destruct (existsb _ (employees db)); [|discriminate].
  intros [= <-]. cbn [attendance MySQL.withAttendance].
  destruct (existsb (MySQL.hasKey userId d) (attendance db)) eqn:Hex.
  - rewrite map_map.
    erewrite map_ext; [intros H; exact H|].
    intros a. cbn. by destruct (MySQL.hasKey userId d a).
  - intros Hnd. rewrite map_app. cbn.
    apply NoDup_app. split; [exact Hnd|]. split; [|apply NoDup_singleton].
    intros k Hk ->%list_elem_of_singleton.
    apply list_elem_of_fmap in Hk as (a & Hka & Hin).
    assert (existsb (MySQL.hasKey userId d) (attendance db) = true); [|congruence].
    apply existsb_exists. exists a. split; [by apply list_elem_of_In|].
    apply hasKey_true. by rewrite Hka.
Qed.

Lemma updateCheckOut_uniqueKey (t userId d : Z) (db : Database) :
  uniqueKey (attendance db) ->
  uniqueKey (attendance (fst (MySQL.updateCheckOut t userId d db))).
Proof.
  unfold uniqueKey. cbn. rewrite map_map.
  erewrite map_ext; [intros H; exact H|].
  intros a. cbn. by destruct (MySQL.hasKey userId d a).
Qed.

(** *** Check-out *)

Ltac unfold_async :=
  unfold AttendanceService.checkOut, AttendanceService.recordCheckOut,
    AttendanceService.checkIn, AttendanceService.recordCheckIn,
    AttendanceService.hasCheckedInToday, AttendanceService.queueLateNotification,
    AttendanceService.getTodayDate, AttendanceService.getCurrentEmployeesInOffice,
    AttendanceService.getAttendanceReport,
    pool.executeUpdateCheckOut, pool.executeInsertAttendance,
    pool.executeSelectEmployeesIn, pool.executeSelectReport,
    client.get, client.setEx, client.sAdd, client.sRem, client.sMembers,
    emailQueue_add, newDate, JSON_parse, bind, ret, throw.

(** C5. A check-out for an employee with no attendance row for today is
    rejected with "No check-in record found for today" (status 400 at the
    controller), and the world afterwards is the world before with only the
    UPDATE statement logged: the attendance table, the Redis key space, the
    presence set and the queue are as before. *)
Theorem checkOut_without_record (userId : Z) (w : World) :
  recordsFor userId (Clock.getTodayDate (clock w)) (mysql w) = [] ->
  let w' := logSql (UpdateCheckOut (clock w) userId
                      (Clock.getTodayDate (clock w))) w in
  AttendanceService.checkOut userId w
  = (Rejected (Error "No check-in record found for today"), w')
  /\ AttendanceController.checkOut userId w
     = (Status 400 "No check-in record found for today", w')
  /\ mysql w' = mysql w
  /\ redis w' = redis w
  /\ emailQueue w' = emailQueue w.
Proof.
  intros Hnone w'. unfold recordsFor in Hnone.
  assert (Hsvc : AttendanceService.checkOut userId w
                 = (Rejected (Error "No check-in record found for today"), w')).
  { unfold_async. cbn. rewrite Hnone. cbn.
    rewrite (update_absent _ _ _ Hnone), withAttendance_same.
    subst w'. by destruct w. }
  split; [exact Hsvc|].
  split; [unfold AttendanceController.checkOut; by rewrite Hsvc|].
  done.
Qed.

Lemma checkOut_without_record_witness :
  recordsFor 7 (Clock.getTodayDate (jan15 17 0 0)) seed = []
  /\ AttendanceService.checkOut 7 (setClock (jan15 17 0 0) office)
     = (Rejected (Error "No check-in record found for today"),
        logSql (UpdateCheckOut (jan15 17 0 0) 7 19737)
          (setClock (jan15 17 0 0) office)).
Proof.
  split; [reflexivity|].
  exact (proj1 (checkOut_without_record 7 (setClock (jan15 17 0 0) office) eq_refl)).
Defined.

(** C6 (as amended). There is a transition out of the checked-out state: for
    an employee with an attendance row for today, whatever its
    [check_out_time], a check-out succeeds, every row of that employee and
    day ends with [check_out_time] equal to the time of this call, no row is
    added or removed, and the employee is not in the presence set. *)
Theorem checkOut_overwrites (userId : Z) (w : World) :
  recordsFor userId (Clock.getTodayDate (clock w)) (mysql w) <> [] ->
  exists w',
    AttendanceService.checkOut userId w
    = (Resolved {| checkOutMessage := "Checked out successfully";
                   checkOutTime := clock w |}, w')
    /\ recordsFor userId (Clock.getTodayDate (clock w)) (mysql w')
       = map (MySQL.setCheckOut (clock w))
             (recordsFor userId (Clock.getTodayDate (clock w)) (mysql w))
    /\ (forall a, a ∈ recordsFor userId (Clock.getTodayDate (clock w)) (mysql w') ->
                  check_out_time a = Some (clock w))
    /\ length (attendance (mysql w')) = length (attendance (mysql w))
    /\ userId ∉ employees_in_office (redis w').
Proof.
  intros Hsome. unfold recordsFor in *.
  unfold_async. cbn.
  set (today := Clock.getTodayDate (clock w)) in *.
  destruct (List.filter (MySQL.hasKey userId today) (attendance (mysql w)))
    as [|a0 rows0] eqn:Hrows; [done|].
  cbn. eexists. split; [reflexivity|]. cbn.
  assert (Hupd : List.filter (MySQL.hasKey userId today)
            (map (fun a => if MySQL.hasKey userId today a
                           then MySQL.setCheckOut (clock w) a else a)
               (attendance (mysql w)))
          = map (MySQL.setCheckOut (clock w)) (a0 :: rows0)).
  { rewrite <- Hrows. apply filter_update. intros a. apply hasKey_setCheckOut. }
  split; [exact Hupd|]. split.
  - intros a. rewrite Hupd. intros Ha.
    apply list_elem_of_fmap in Ha as (b & Hb & Hin). by subst a.
  - split; [by rewrite length_map|].
    intros [_ Hnot]%elem_of_difference. apply Hnot, elem_of_singleton. reflexivity.
Qed.

Lemma checkOut_overwrites_witness :
  let w1 := snd (AttendanceService.checkIn utcDefault 7 "Eve Anderson"
                   (setClock (jan15 8 45 0) office)) in
  let w2 := setClock (jan15 18 0 0)
              (snd (AttendanceService.checkOut 7 (setClock (jan15 17 0 0) w1))) in
  recordsFor 7 (Clock.getTodayDate (clock w2)) (mysql w2) <> []
  /\ exists w',
       AttendanceService.checkOut 7 w2
       = (Resolved {| checkOutMessage := "Checked out successfully";
                      checkOutTime := clock w2 |}, w').
Proof.
  intros w1 w2.
  assert (H : recordsFor 7 (Clock.getTodayDate (clock w2)) (mysql w2) <> [])
    by (vm_compute; discriminate).
  split; [exact H|].
  destruct (checkOut_overwrites 7 w2 H) as (w' & Hw' & _).
  exists w'. exact Hw'.
Defined.

(** C6, as stated: after a check-in at 08:45 and a check-out at 17:00, a
    second check-out at 18:00 is accepted and the stored [check_out_time]
    changes from 17:00 to 18:00. *)
Lemma second_checkOut_accepted :
  let w1 := snd (AttendanceService.checkIn utcDefault 7 "Eve Anderson"
                   (setClock (jan15 8 45 0) office)) in
  let first := AttendanceService.checkOut 7 (setClock (jan15 17 0 0) w1) in
  let second := AttendanceService.checkOut 7 (setClock (jan15 18 0 0) (snd first)) in
  fst first = Resolved {| checkOutMessage := "Checked out successfully";
                          checkOutTime := jan15 17 0 0 |}
  /\ map check_out_time (recordsFor 7 19737 (mysql (snd first)))
     = [Some (jan15 17 0 0)]
  /\ fst second = Resolved {| checkOutMessage := "Checked out successfully";
                              checkOutTime := jan15 18 0 0 |}
  /\ map check_out_time (recordsFor 7 19737 (mysql (snd second)))
     = [Some (jan15 18 0 0)]
  /\ jan15 18 0 0 <> jan15 17 0 0.
Proof. repeat split; vm_compute; congruence. Qed.

(** *** Check-in *)

(** [checkIn] with its awaits run in sequence, path by path. *)
Lemma checkIn_paths (cfg : Config) (userId : Z) (userName : string) (w : World) :
  AttendanceService.checkIn cfg userId userName w =
  let today := Clock.getTodayDate (clock w) in
  let t := clock w in
  match RedisClient.get t (CheckinKey userId today) (redis w) with
  | Some _ => (Rejected (Error "Already checked in today"), w)
  | None =>
      match MySQL.insertAttendance userId today t (mysql w) with
      | None =>
          (Rejected ForeignKeyError, logSql (InsertAttendance userId today t) w)
      | Some db =>
          let w2 := recorded userId today t db w in
          let result := {| message := "Checked in successfully";
                           checkInTime := t;
                           isLate := Clock.isLate cfg t |} in
          if Clock.isLate cfg t then
            if queueReady w
            then (Resolved result, pushJob (lateJob cfg userId userName t) w2)
            else (Rejected QueueError, w2)
          else (Resolved result, w2)
      end
  end.
Proof.
  unfold_async. cbn.
  destruct (RedisClient.get _ _ _); cbn; [reflexivity|].
  destruct (MySQL.insertAttendance _ _ _ _); cbn; [|reflexivity].
  destruct (Clock.isLate cfg (clock w)); cbn; [|reflexivity].
  destruct (queueReady w); reflexivity.
Qed.

Lemma recordCheckIn_paths (userId d t : Z) (w : World) :
  AttendanceService.recordCheckIn userId d t w =
  match MySQL.insertAttendance userId d t (mysql w) with
  | None => (Rejected ForeignKeyError, logSql (InsertAttendance userId d t) w)
  | Some db =>
      (Resolved tt,
       setRedis
         (RedisClient.sAdd userId
            (RedisClient.setEx (clock w) (CheckinKey userId d) 86400
               (IsoString t) (redis w)))
         (setMysql db (logSql (InsertAttendance userId d t) w)))
  end.
Proof.
  unfold_async. cbn.
  destruct (MySQL.insertAttendance _ _ _ _); reflexivity.
Qed.

Lemma get_after_setEx (now t : Z) (key : CacheKey) (seconds : Z)
    (v : CacheValue) (r : Redis) :
  t <= now <= t + seconds * 1000 ->
  RedisClient.get now key (RedisClient.setEx t key seconds v r) = Some v.
Proof.
  intros H. unfold RedisClient.get, RedisClient.setEx. cbn.
  rewrite lookup_insert_eq.
  destruct (now <=? t + seconds * 1000) eqn:E; [done | lia].
Qed.

Lemma get_sAdd (now : Z) (key : CacheKey) (member : Z) (r : Redis) :
  RedisClient.get now key (RedisClient.sAdd member r) = RedisClient.get now key r.
Proof. reflexivity. Qed.

(** What the upsert leaves in the table. *)
Lemma insertAttendance_recordsFor (userId d t : Z) (db db' : Database) :
  MySQL.insertAttendance userId d t db = Some db' ->
  hasEmployee userId db = true
  /\ employees db' = employees db
  /\ recordsFor userId d db' <> []
  /\ (forall a, a ∈ recordsFor userId d db' -> check_in_time a = Some t)
  /\ (recordsFor userId d db <> [] ->
      recordsFor userId d db' = map (MySQL.setCheckIn t) (recordsFor userId d db)
      /\ length (attendance db') = length (attendance db)).
Proof.
  unfold MySQL.insertAttendance, recordsFor, hasEmployee.
  destruct (existsb _ (employees db)); [|discriminate].
  intros [= <-]. cbn [attendance employees MySQL.withAttendance].
  split; [done|]. split; [done|].
  destruct (existsb (MySQL.hasKey userId d) (attendance db)) eqn:Hex.
  - rewrite (filter_update _ _ (hasKey_setCheckIn userId d t)).
    assert (List.filter (MySQL.hasKey userId d) (attendance db) <> []) as Hne.
    { intros Hnil%filter_nil_existsb. congruence. }
    split; [by destruct (List.filter _ (attendance db))|].
    split; [intros a Ha; apply list_elem_of_fmap in Ha as (b & Hb & Hin); by subst a|].
    intros _. by rewrite length_map.
  - apply filter_nil_existsb in Hex.
    rewrite List.filter_app, Hex. cbn.
    unfold MySQL.hasKey. cbn. rewrite !Z.eqb_refl. cbn.
    split; [done|]. split; [|done].
    intros a ->%list_elem_of_singleton. reflexivity.
Qed.

(** C2 (as amended). [recordCheckIn] for a key that already has an
    attendance row (of an existing employee) signals no conflict: it resolves,
    every row of that key now carries the new [check_in_time] (the previous
    one is overwritten, [check_out_time] is kept), no row is added, the
    check-in key is set and the employee is in the presence set. *)
Theorem recordCheckIn_existing_overwrites (userId d t : Z) (w : World) :
  hasEmployee userId (mysql w) = true ->
  recordsFor userId d (mysql w) <> [] ->
  exists w',
    AttendanceService.recordCheckIn userId d t w = (Resolved tt, w')
    /\ recordsFor userId d (mysql w')
       = map (MySQL.setCheckIn t) (recordsFor userId d (mysql w))
    /\ (forall a, a ∈ recordsFor userId d (mysql w') -> check_in_time a = Some t)
    /\ length (attendance (mysql w')) = length (attendance (mysql w))
    /\ RedisClient.get (clock w) (CheckinKey userId d) (redis w')
       = Some (IsoString t)
    /\ userId ∈ employees_in_office (redis w').
Proof.
  intros Hemp Hrows. rewrite recordCheckIn_paths.
  destruct (MySQL.insertAttendance userId d t (mysql w)) as [db|] eqn:Hins.
  - destruct (insertAttendance_recordsFor _ _ _ _ _ Hins)
      as (_ & _ & _ & Hall & Hupd).
    destruct (Hupd Hrows) as [Heq Hlen].
    eexists. split; [reflexivity|].
    cbn [redis setRedis mysql setMysql logSql].
    split; [exact Heq|]. split; [exact Hall|]. split; [exact Hlen|].
    split.
    + rewrite get_sAdd. apply get_after_setEx. lia.
    + apply elem_of_union_l, elem_of_singleton. reflexivity.
  - unfold MySQL.insertAttendance in Hins. unfold hasEmployee in Hemp.
    rewrite Hemp in Hins. discriminate.
Qed.

Lemma recordCheckIn_existing_overwrites_witness :
  hasEmployee 3 (mysql seededToday) = true
  /\ recordsFor 3 19737 (mysql seededToday) <> []
  /\ exists w',
       AttendanceService.recordCheckIn 3 19737 (jan15 10 0 0) seededToday
       = (Resolved tt, w').
Proof.
  assert (H1 : hasEmployee 3 (mysql seededToday) = true) by reflexivity.
  assert (H2 : recordsFor 3 19737 (mysql seededToday) <> [])
    by (vm_compute; discriminate).
  split; [exact H1|]. split; [exact H2|].
  destruct (recordCheckIn_existing_overwrites 3 19737 (jan15 10 0 0)
              seededToday H1 H2) as (w' & Hw' & _).
  exists w'. exact Hw'.
Defined.

(** C2, as stated: employee 3 has a row for the day with check-in 09:15;
    [recordCheckIn] at 10:00 resolves without a conflict and the stored
    [check_in_time] becomes 10:00. *)
Lemma recordCheckIn_no_conflict :
  let r := AttendanceService.recordCheckIn 3 19737 (jan15 10 0 0)
             (setClock (jan15 10 0 0) seededToday) in
  map check_in_time (recordsFor 3 19737 (mysql seededToday))
  = [Some (jan15 9 15 0)]
  /\ fst r = Resolved tt
  /\ map check_in_time (recordsFor 3 19737 (mysql (snd r)))
     = [Some (jan15 10 0 0)]
  /\ jan15 10 0 0 <> jan15 9 15 0.
Proof. repeat split; vm_compute; congruence. Qed.

(** C3 (as amended). On a late check-in that passes the duplicate guard, if
    the queue cannot be reached the rejection of [emailQueue.add] propagates:
    [checkIn] is rejected and the controller answers 500 "Check-in failed".
    The writes made before the enqueue stand: the attendance row carries this
    check-in time, the check-in key is set, the employee is in the presence
    set; no job is queued. *)
Theorem checkIn_late_queue_unavailable (cfg : Config) (userId : Z)
    (userName : string) (w : World) :
  RedisClient.get (clock w) (CheckinKey userId (Clock.getTodayDate (clock w)))
    (redis w) = None ->
  hasEmployee userId (mysql w) = true ->
  Clock.isLate cfg (clock w) = true ->
  queueReady w = false ->
  exists w',
    AttendanceService.checkIn cfg userId userName w = (Rejected QueueError, w')
    /\ AttendanceController.checkIn cfg userId userName w
       = (Status 500 "Check-in failed", w')
    /\ recordsFor userId (Clock.getTodayDate (clock w)) (mysql w') <> []
    /\ (forall a, a ∈ recordsFor userId (Clock.getTodayDate (clock w)) (mysql w') ->
                  check_in_time a = Some (clock w))
    /\ userId ∈ employees_in_office (redis w')
    /\ RedisClient.get (clock w) (CheckinKey userId (Clock.getTodayDate (clock w)))
         (redis w') = Some (IsoString (clock w))
    /\ emailQueue w' = emailQueue w.
Proof.
  intros Hmiss Hemp Hlate Hdown.
  unfold AttendanceController.checkIn. rewrite checkIn_paths. cbn zeta.
  rewrite Hmiss, Hlate, Hdown.
  destruct (MySQL.insertAttendance userId (Clock.getTodayDate (clock w))
              (clock w) (mysql w)) as [db|] eqn:Hins.
  - destruct (insertAttendance_recordsFor _ _ _ _ _ Hins)
      as (_ & _ & Hne & Hall & _).
    eexists. split; [reflexivity|]. split; [reflexivity|].
    unfold recorded. cbn [redis setRedis mysql setMysql logSql emailQueue].
    split; [exact Hne|]. split; [exact Hall|]. split.
    + apply elem_of_union_l, elem_of_singleton. reflexivity.
    + split; [|reflexivity]. rewrite get_sAdd. apply get_after_setEx. lia.
  - unfold MySQL.insertAttendance in Hins. unfold hasEmployee in Hemp.
    rewrite Hemp in Hins. discriminate.
Qed.

Lemma checkIn_late_queue_unavailable_witness :
  let w := setClock (jan15 9 15 0) (queueDown office) in
  RedisClient.get (clock w) (CheckinKey 7 (Clock.getTodayDate (clock w)))
    (redis w) = None
  /\ hasEmployee 7 (mysql w) = true
  /\ Clock.isLate utcDefault (clock w) = true
  /\ queueReady w = false
  /\ exists w',
       AttendanceService.checkIn utcDefault 7 "Eve Anderson" w
       = (Rejected QueueError, w').
Proof.
  intros w.
  assert (H1 : RedisClient.get (clock w)
                 (CheckinKey 7 (Clock.getTodayDate (clock w))) (redis w) = None)
    by reflexivity.
  assert (H2 : hasEmployee 7 (mysql w) = true) by reflexivity.
  assert (H3 : Clock.isLate utcDefault (clock w) = true) by reflexivity.
  assert (H4 : queueReady w = false) by reflexivity.
  repeat (split; [assumption|]).
  destruct (checkIn_late_queue_unavailable utcDefault 7 "Eve Anderson" w
              H1 H2 H3 H4) as (w' & Hw' & _).
  exists w'. exact Hw'.
Defined.

(** C3, as stated: with the queue unreachable, the late check-in of
    employee 7 at 09:15 does not return success; the call is rejected and the
    request is answered with status 500, while the attendance row has been
    written. *)
Lemma late_checkIn_fails_when_queue_down :
  let w := setClock (jan15 9 15 0) (queueDown office) in
  Clock.isLate utcDefault (clock w) = true
  /\ fst (AttendanceService.checkIn utcDefault 7 "Eve Anderson" w)
     = Rejected QueueError
  /\ fst (AttendanceController.checkIn utcDefault 7 "Eve Anderson" w)
     = Status 500 "Check-in failed"
  /\ map check_in_time
       (recordsFor 7 19737
          (mysql (snd (AttendanceService.checkIn utcDefault 7 "Eve Anderson" w))))
     = [Some (jan15 9 15 0)].
Proof. repeat split; vm_compute; congruence. Qed.

(** With no seconds field, [WithSeconds.checkIn] is [checkIn]. *)
Lemma checkIn_without_seconds (cfg : Config) (userId : Z) (userName : string)
    (w : World) :
  WithSeconds.checkIn cfg 0 userId userName w
  = AttendanceService.checkIn cfg userId userName w.
Proof.
  assert (Hsame : forall t, WithSeconds.calculateMinutesLate cfg 0 t
                            = Clock.calculateMinutesLate cfg t).
  { intros t. unfold WithSeconds.calculateMinutesLate, Clock.calculateMinutesLate.
    cbv zeta. by rewrite Z.mul_0_l, Z.add_0_r. }
  rewrite checkIn_paths. cbv zeta.
  unfold WithSeconds.checkIn. unfold_async. cbn.
  destruct (RedisClient.get _ _ _); cbn; [reflexivity|].
  destruct (MySQL.insertAttendance _ _ _ _); cbn; [|reflexivity].
  destruct (Clock.isLate cfg (clock w)); cbn; [|reflexivity].
  destruct (queueReady w); [|reflexivity].
  unfold lateJob. by rewrite Hsame.
Qed.

(** C9 (as amended). For a WORK_START_TIME that is unset or reads HH:MM with
    the hour in 0..23 and the minute in 0..59, a check-in that succeeds
    queues a job exactly when [isLate] holds for its check-in time: when
    late, the queue grows by one job for this employee and time whose
    [minutesLate] is [calculateMinutesLate] of the check-in time and is
    non-negative; when not late, the queue is as before.
    [calculateMinutesLate] alone has no clamp: it is negative at every
    instant before the start of the working day. *)
Theorem late_job_iff_late (cfg : Config) (userId : Z) (userName : string)
    (w w' : World) (result : CheckInResult) :
  validStart cfg ->
  AttendanceService.checkIn cfg userId userName w = (Resolved result, w') ->
  isLate result = Clock.isLate cfg (clock w)
  /\ (Clock.isLate cfg (clock w) = true ->
      exists job,
        emailQueue w' = emailQueue w ++ [job]
        /\ employeeId job = userId
        /\ employeeName job = userName
        /\ jobCheckInTime job = clock w
        /\ minutesLate job = Clock.calculateMinutesLate cfg (clock w)
        /\ 0 <= minutesLate job)
  /\ (Clock.isLate cfg (clock w) = false -> emailQueue w' = emailQueue w)
  /\ (forall t, t < Clock.startOfDay cfg t -> Clock.calculateMinutesLate cfg t < 0).
Proof.
  intros _. rewrite checkIn_paths. cbn zeta.
  destruct (RedisClient.get _ _ _); [discriminate|].
  destruct (MySQL.insertAttendance _ _ _ _) as [db|]; [|discriminate].
  destruct (Clock.isLate cfg (clock w)) eqn:Hlate.
  - destruct (queueReady w); [|discriminate].
    intros [= <- <-]. cbn. split; [reflexivity|]. split.
    + intros _. exists (lateJob cfg userId userName (clock w)).
      repeat (split; [reflexivity|]).
      by apply minutesLate_nonneg_of_late.
    + split; [discriminate | apply minutesLate_negative_before_start].
  - intros [= <- <-]. cbn. split; [reflexivity|]. split; [discriminate|].
    split; [reflexivity | apply minutesLate_negative_before_start].
Qed.

Lemma late_job_iff_late_witness :
  let w := setClock (jan15 9 15 0) office in
  validStart utcDefault
  /\ exists result w',
       AttendanceService.checkIn utcDefault 7 "Eve Anderson" w
       = (Resolved result, w')
       /\ isLate result = Clock.isLate utcDefault (clock w)
       /\ map minutesLate (emailQueue w') = [15].
Proof.
  intros w.
  assert (Hv : validStart utcDefault) by (vm_compute; repeat split; discriminate).
  assert (H : exists result w',
             AttendanceService.checkIn utcDefault 7 "Eve Anderson" w
             = (Resolved result, w')
             /\ map minutesLate (emailQueue w') = [15]).
  { eexists. eexists. split; vm_compute; reflexivity. }
  destruct H as (result & w' & H & Hq). split; [exact Hv|]. exists result, w'.
  split; [exact H|].
  split; [exact (proj1 (late_job_iff_late utcDefault 7 "Eve Anderson" w w' result
                          Hv H))
         | exact Hq].
Defined.

(** C9, as stated: with WORK_START_TIME=09:00:30 a check-in at 09:00:10
    succeeds, [isLate] holds (it reads 09:00), a job is queued, and its
    [minutesLate] is -1 ([calculateMinutesLate] counts from 09:00:30). *)
Lemma late_job_with_negative_minutes :
  let w := setClock (jan15 9 0 10) office in
  let r := WithSeconds.checkIn nineAndThirtySeconds 30 7 "Eve Anderson" w in
  Clock.isLate nineAndThirtySeconds (clock w) = true
  /\ fst r = Resolved {| message := "Checked in successfully";
                         checkInTime := jan15 9 0 10; isLate := true |}
  /\ map minutesLate (emailQueue (snd r)) = [-1]
  /\ ~ jobsNonNegative (snd r).
Proof.
  intros w r.
  assert (Hq : map minutesLate (emailQueue (snd r)) = [-1])
    by (vm_compute; reflexivity).
  split; [vm_compute; reflexivity|]. split; [vm_compute; reflexivity|].
  split; [exact Hq|].
  unfold jobsNonNegative. intros H.
  destruct (emailQueue (snd r)) as [|job jobs]; [discriminate|].
  injection Hq as Hjob _. inversion H; subst. lia.
Qed.

(** *** One check-in per employee and day *)

Lemma same_day_within_a_day (t1 t2 : Z) :
  Clock.getTodayDate t2 = Clock.getTodayDate t1 -> t2 <= t1 + 86400 * 1000.
Proof.
  unfold Clock.getTodayDate. intros H.
  pose proof (Z.div_mod t1 Clock.msPerDay) as H1.
  pose proof (Z.div_mod t2 Clock.msPerDay) as H2.
  pose proof (Z.mod_pos_bound t1 Clock.msPerDay) as B1.
  pose proof (Z.mod_pos_bound t2 Clock.msPerDay) as B2.
  rewrite H in H2. change Clock.msPerDay with 86400000 in *. lia.
Qed.

(** Run one after the other, a second check-in of the same employee on the
    same day finds the key the first one set and is rejected; it changes
    nothing. *)
Lemma checkIn_again_rejected (cfg : Config) (userId : Z) (userName other : string)
    (w w1 : World) (result : CheckInResult) (t2 : Z) :
  AttendanceService.checkIn cfg userId userName w = (Resolved result, w1) ->
  clock w <= t2 ->
  Clock.getTodayDate t2 = Clock.getTodayDate (clock w) ->
  AttendanceService.checkIn cfg userId other (setClock t2 w1)
  = (Rejected (Error "Already checked in today"), setClock t2 w1).
Proof.
  intros Hfirst Hle Hday.
  assert (Hkey : RedisClient.get t2 (CheckinKey userId (Clock.getTodayDate t2))
                   (redis w1) = Some (IsoString (clock w))).
  { rewrite checkIn_paths in Hfirst. cbn zeta in Hfirst.
    destruct (RedisClient.get _ _ (redis w)); [discriminate|].
    destruct (MySQL.insertAttendance _ _ _ _) as [db|]; [|discriminate].
    pose proof (same_day_within_a_day _ _ Hday) as Httl.
    assert (Hrec : RedisClient.get t2 (CheckinKey userId (Clock.getTodayDate t2))
              (redis (recorded userId (Clock.getTodayDate (clock w)) (clock w) db w))
            = Some (IsoString (clock w))).
    { unfold recorded. cbn [redis setRedis]. rewrite get_sAdd, Hday.
      apply get_after_setEx. lia. }
    destruct (Clock.isLate cfg (clock w)).
    - destruct (queueReady w); [|discriminate].
      injection Hfirst as _ <-. exact Hrec.
    - injection Hfirst as _ <-. exact Hrec. }
  rewrite checkIn_paths. cbn zeta. cbn [clock setClock redis].
  by rewrite Hkey.
Qed.

(** Whatever the interleaving, the table keeps at most one row per employee
    and day. *)
Lemma resume_uniqueKey (cfg : Config) (c : CheckInCall) (w : World) :
  uniqueKey (attendance (mysql w)) ->
  uniqueKey (attendance (mysql (snd (Concurrent.resume cfg c w)))).
Proof.
  intros Hu. unfold Concurrent.resume, Concurrent.awaiting.
  destruct (stage c); unfold_async; cbv beta.
  - by destruct (RedisClient.get _ _ _).
  - cbn. destruct (MySQL.insertAttendance _ _ _ _) as [db|] eqn:Hins; cbn; [|exact Hu].
    eapply insertAttendance_uniqueKey; eauto.
  - exact Hu.
  - by destruct (Clock.isLate _ _).
  - by destruct (queueReady w).
  - exact Hu.
Qed.

Lemma run_uniqueKey (cfg : Config) (schedule : list (nat * Z))
    (calls : list CheckInCall) (w : World) :
  uniqueKey (attendance (mysql w)) ->
  uniqueKey (attendance (mysql (snd (Concurrent.run cfg schedule calls w)))).
Proof.
  revert calls w. induction schedule as [|[i t] rest IH]; intros calls w Hu;
    cbn; [exact Hu|].
  destruct (calls !! i) as [c|]; [|by apply IH].
  pose proof (resume_uniqueKey cfg c (setClock t w) Hu) as Hstep.
  destruct (Concurrent.resume cfg c (setClock t w)) as [c' w'].
  by apply IH.
Qed.

Lemma run_at_most_one_record (cfg : Config) (schedule : list (nat * Z))
    (calls : list CheckInCall) (w : World) (userId d : Z) :
  uniqueKey (attendance (mysql w)) ->
  (length (recordsFor userId d
             (mysql (snd (Concurrent.run cfg schedule calls w)))) <= 1)%nat.
Proof. intros Hu. by apply uniqueKey_recordsFor, run_uniqueKey. Qed.

(** Under every interleaving, the jobs in the queue have a non-negative
    [minutesLate]. *)
Lemma resume_jobsNonNegative (cfg : Config) (c : CheckInCall) (w : World) :
  lateAtQueue cfg c -> jobsNonNegative w ->
  lateAtQueue cfg (fst (Concurrent.resume cfg c w))
  /\ jobsNonNegative (snd (Concurrent.resume cfg c w)).
Proof.
  intros Hc Hq. unfold Concurrent.resume, Concurrent.awaiting.
  destruct (stage c) eqn:Hs; unfold_async; cbv beta.
  - destruct (RedisClient.get _ _ _); cbn; (split; [discriminate | exact Hq]).
  - cbn. destruct (MySQL.insertAttendance _ _ _ _); cbn;
      (split; [discriminate | exact Hq]).
  - cbn. split; [discriminate | exact Hq].
  - destruct (Clock.isLate cfg (callCheckInTime c)) eqn:Hlate; cbn.
    + split; [intros _; exact Hlate | exact Hq].
    + split; [discriminate | exact Hq].
  - destruct (queueReady w); cbn; (split; [discriminate|]); [|exact Hq].
    unfold jobsNonNegative. cbn. apply Forall_app. split; [exact Hq|].
    apply Forall_singleton. cbn. apply minutesLate_nonneg_of_late, Hc, Hs.
  - split; [exact Hc | exact Hq].
Qed.

Lemma run_jobsNonNegative (cfg : Config) (schedule : list (nat * Z))
    (calls : list CheckInCall) (w : World) :
  Forall (lateAtQueue cfg) calls -> jobsNonNegative w ->
  jobsNonNegative (snd (Concurrent.run cfg schedule calls w)).
Proof.
  revert calls w. induction schedule as [|[i t] rest IH]; intros calls w Hcs Hq;
    cbn; [exact Hq|].
  destruct (calls !! i) as [c|] eqn:Hi; [|by apply IH].
  destruct (resume_jobsNonNegative cfg c (setClock t w)) as [Hc' Hq'];
    [by eapply Forall_lookup_1 | exact Hq |].
  destruct (Concurrent.resume cfg c (setClock t w)) as [c' w'].
  apply IH; [by apply Forall_insert | exact Hq'].
Qed.

(** Resumed without interruption, a call is [checkIn]. *)
Lemma resume_alone_is_checkIn (cfg : Config) (userId : Z) (userName : string)
    (w : World) :
  Concurrent.resumeN cfg 5 (Concurrent.start userId userName w) w
  = (Concurrent.moveTo
       (Settled (fst (AttendanceService.checkIn cfg userId userName w)))
       (Concurrent.start userId userName w),
     snd (AttendanceService.checkIn cfg userId userName w)).
Proof.
  rewrite checkIn_paths. cbn zeta.
  unfold Concurrent.resumeN, Concurrent.start, Concurrent.resume,
    Concurrent.awaiting, Concurrent.result, Concurrent.moveTo.
  unfold_async. cbn [stage callUserId callUserName callToday callCheckInTime].
  cbv beta.
  destruct (RedisClient.get _ _ _); cbn; [reflexivity|].
  destruct (MySQL.insertAttendance _ _ _ _); cbn; [|reflexivity].
  destruct (Clock.isLate cfg (clock w)) eqn:Hlate; cbn.
  - destruct (queueReady w); cbn; reflexivity.
  - reflexivity.
Qed.

(** C1, on the code: under this interleaving both calls return success (not
    one success and one "Already checked in today"), two late-arrival jobs
    are queued, and the single attendance row carries the second call's
    time. *)
Theorem concurrent_checkIns_both_succeed :
  let '(calls, w') :=
    Concurrent.run utcDefault racingSchedule doubleClick office in
  map Concurrent.succeeded calls = [true; true]
  /\ map check_in_time (recordsFor 7 19737 (mysql w'))
     = [Some (jan15 9 15 0 + 1)]
  /\ map jobCheckInTime (emailQueue w') = [jan15 9 15 0; jan15 9 15 0 + 1]
  /\ sqlLog w' = [ InsertAttendance 7 19737 (jan15 9 15 0);
                   InsertAttendance 7 19737 (jan15 9 15 0 + 1) ].
Proof. vm_compute. repeat split; reflexivity. Qed.

(** *** Current presence *)

Lemma selectEmployeesIn_spec (ids : gset Z) (db : Database) (e : Employee) :
  e ∈ MySQL.selectEmployeesIn (elements ids) db
  <-> e ∈ employees db /\ id e ∈ ids.
Proof.
  unfold MySQL.selectEmployeesIn.
  rewrite list_elem_of_In, filter_In, <- list_elem_of_In, existsb_exists.
  split.
  - intros [He (x & Hx & ->%Z.eqb_eq)]. split; [exact He|].
    by apply elem_of_elements, list_elem_of_In.
  - intros [He Hid]. split; [exact He|]. exists (id e).
    split; [by apply list_elem_of_In, elem_of_elements | apply Z.eqb_refl].
Qed.

(** C10. With an empty presence set [getCurrentEmployeesInOffice] resolves
    to the empty list and leaves the world as it is, so no statement reaches
    MySQL. With a non-empty set it runs the one SELECT and resolves to
    exactly the [employees] rows whose id is in the set: a member of the set
    with no [employees] row has no row in the result, and the call still
    resolves. *)
Theorem current_presence (w : World) :
  (employees_in_office (redis w) = ∅ ->
   AttendanceService.getCurrentEmployeesInOffice w = (Resolved [], w)
   /\ sqlLog (snd (AttendanceService.getCurrentEmployeesInOffice w)) = sqlLog w)
  /\ (employees_in_office (redis w) <> ∅ ->
      exists rows,
        AttendanceService.getCurrentEmployeesInOffice w
        = (Resolved rows,
           logSql (SelectEmployeesIn (elements (employees_in_office (redis w)))) w)
        /\ (forall e, e ∈ rows <->
                      e ∈ employees (mysql w)
                      /\ id e ∈ employees_in_office (redis w))
        /\ (forall member,
              member ∈ employees_in_office (redis w) ->
              (forall e, e ∈ employees (mysql w) -> id e <> member) ->
              forall e, e ∈ rows -> id e <> member)).
Proof.
  split.
  - intros Hempty.
    assert (H : AttendanceService.getCurrentEmployeesInOffice w = (Resolved [], w)).
    { unfold_async. unfold RedisClient.sMembers. cbv beta.
      rewrite Hempty, elements_empty. reflexivity. }
    by rewrite H.
  - intros Hne.
    exists (MySQL.selectEmployeesIn (elements (employees_in_office (redis w)))
              (mysql w)).
    split; [|split].
    + unfold_async. unfold RedisClient.sMembers. cbv beta.
      destruct (elements (employees_in_office (redis w))) as [|m ms] eqn:Hel.
      * apply elements_empty_inv, leibniz_equiv in Hel. contradiction.
      * reflexivity.
    + intros e. apply selectEmployeesIn_spec.
    + intros member _ Hnorow e [He _]%selectEmployeesIn_spec. by apply Hnorow.
Qed.

Lemma current_presence_witness :
  employees_in_office (redis office) = ∅
  /\ AttendanceService.getCurrentEmployeesInOffice office = (Resolved [], office)
  /\ employees_in_office (redis strayMember) <> ∅
  /\ exists rows,
       fst (AttendanceService.getCurrentEmployeesInOffice strayMember)
       = Resolved rows
       /\ forall e, e ∈ rows -> id e <> 42.
Proof.
  assert (H0 : employees_in_office (redis office) = ∅) by reflexivity.
  assert (H1 : employees_in_office (redis strayMember) <> ∅).
  { intros H. assert (H7 : 7 ∈ employees_in_office (redis strayMember))
      by (apply elem_of_union_l, elem_of_singleton; reflexivity).
    rewrite H in H7. by apply not_elem_of_empty in H7. }
  split; [exact H0|].
  split; [exact (proj1 (proj1 (current_presence office) H0))|].
  split; [exact H1|].
  destruct (proj2 (current_presence strayMember) H1) as (rows & Hrows & _ & Hstray).
  exists rows. split; [by rewrite Hrows|].
  apply (Hstray 42).
  - apply elem_of_union_r, elem_of_singleton. reflexivity.
  - intros e He. cbn in He.
    repeat (apply elem_of_cons in He as [->|He]; [discriminate|]).
    by apply elem_of_nil in He.
Defined.

Example current_presence_stray :
  fst (AttendanceService.getCurrentEmployeesInOffice strayMember)
  = Resolved [{| id := 7; name := "Eve Anderson"; department := "Marketing" |}].
Proof. vm_compute. reflexivity. Qed.

(** *** Reports *)

Lemma orderBy_elem_of (db : Database) (rows : list ReportRow) (r : ReportRow) :
  r ∈ MySQL.orderBy db rows <-> r ∈ rows.
Proof. unfold MySQL.orderBy. by rewrite merge_sort_Permutation. Qed.

Lemma leftJoin_elem_of (startDate endDate : Z) (db : Database)
    (e : Employee) (a : Attendance) :
  e ∈ employees db -> a ∈ attendance db ->
  MySQL.joins startDate endDate e a = true ->
  MySQL.joinedRow e a ∈ MySQL.leftJoin startDate endDate db.
Proof.
  intros He Ha Hj. unfold MySQL.leftJoin.
  apply list_elem_of_In, in_flat_map. exists e.
  split; [by apply list_elem_of_In|].
  assert (Hin : In a (List.filter (MySQL.joins startDate endDate e) (attendance db))).
  { apply filter_In. split; [by apply list_elem_of_In | exact Hj]. }
  destruct (List.filter _ (attendance db)) as [|a0 rest]; [contradiction|].
  by apply in_map.
Qed.

Lemma leftJoin_reversed (startDate endDate : Z) (db : Database) :
  endDate < startDate ->
  MySQL.leftJoin startDate endDate db = map MySQL.nullRow (employees db).
Proof.
  intros Hrev. unfold MySQL.leftJoin.
  generalize (employees db) as es.
  induction es as [|e es IH]; [reflexivity|].
  cbn [flat_map]. rewrite IH.
  assert (List.filter (MySQL.joins startDate endDate e) (attendance db) = []) as ->.
  { apply filter_nil_existsb, not_true_is_false.
    intros (a & _ & Ha)%existsb_exists. unfold MySQL.joins in Ha.
    apply andb_true_iff in Ha as [_ Ha]. apply andb_true_iff in Ha as [H1 H2].
    apply Z.leb_le in H1, H2. lia. }
  reflexivity.
Qed.

(** The two paths of [getAttendanceReport]. *)
Lemma report_hit (startDate endDate : Z) (w : World) (cached : Report) :
  RedisClient.get (clock w) (ReportKey startDate endDate) (redis w)
  = Some (Json cached) ->
  AttendanceService.getAttendanceReport startDate endDate w = (Resolved cached, w).
Proof. intros H. unfold_async. cbv beta. by rewrite H. Qed.

Lemma report_miss (startDate endDate : Z) (w : World) :
  RedisClient.get (clock w) (ReportKey startDate endDate) (redis w) = None ->
  AttendanceService.getAttendanceReport startDate endDate w
  = (Resolved (freshReport startDate endDate (mysql w)),
     setRedis
       (RedisClient.setEx (clock w) (ReportKey startDate endDate) 3600
          (Json (freshReport startDate endDate (mysql w))) (redis w))
       (logSql (SelectReport startDate endDate) w)).
Proof. intros H. unfold_async. cbv beta. by rewrite H. Qed.

(** C7 (as amended). A range with [endDate < startDate] is not refused.
    When no report is cached for the pair, [getAttendanceReport] resolves
    (status 200 at the controller) to a report that echoes the two dates and
    holds one row per employee with NULL attendance columns, in name order,
    and caches it; when one is cached, it resolves to the cached report. *)
Theorem report_reversed_range (startDate endDate : Z) (w : World) :
  endDate < startDate ->
  (RedisClient.get (clock w) (ReportKey startDate endDate) (redis w) = None ->
   let report :=
     {| startDate := startDate; endDate := endDate;
        records := MySQL.orderBy (mysql w)
                     (map MySQL.nullRow (employees (mysql w))) |} in
   exists w',
     AttendanceService.getAttendanceReport startDate endDate w
     = (Resolved report, w')
     /\ AttendanceController.getReports (Some startDate) (Some endDate) w
        = (Ok report, w')
     /\ RedisClient.get (clock w) (ReportKey startDate endDate) (redis w')
        = Some (Json report))
  /\ (forall cached,
        RedisClient.get (clock w) (ReportKey startDate endDate) (redis w)
        = Some (Json cached) ->
        AttendanceController.getReports (Some startDate) (Some endDate) w
        = (Ok cached, w)).
Proof.
  intros Hrev. split.
  - intros Hmiss report.
    assert (Hfresh : freshReport startDate endDate (mysql w) = report).
    { unfold freshReport, MySQL.selectReport. by rewrite leftJoin_reversed. }
    eexists. unfold AttendanceController.getReports.
    rewrite (report_miss _ _ _ Hmiss), Hfresh.
    split; [reflexivity|]. split; [reflexivity|].
    cbn [redis setRedis]. apply get_after_setEx. lia.
  - intros cached Hhit. unfold AttendanceController.getReports.
    by rewrite (report_hit _ _ _ _ Hhit).
Qed.

Lemma report_reversed_range_witness :
  19737 < 19768
  /\ RedisClient.get (clock office) (ReportKey 19768 19737) (redis office) = None
  /\ exists w',
       AttendanceController.getReports (Some 19768) (Some 19737) office
       = (Ok {| startDate := 19768; endDate := 19737;
                records := MySQL.orderBy seed (map MySQL.nullRow (employees seed)) |},
          w').
Proof.
  assert (H1 : 19737 < 19768) by reflexivity.
  assert (H2 : RedisClient.get (clock office) (ReportKey 19768 19737)
                 (redis office) = None) by reflexivity.
  split; [exact H1|]. split; [exact H2|].
  destruct (proj1 (report_reversed_range 19768 19737 office H1) H2)
    as (w' & _ & Hw' & _).
  exists w'. exact Hw'.
Defined.

(** C7, as stated: the request for 2024-02-15 .. 2024-01-15, with a check-in
    recorded on 2024-01-15, is answered with a report (ten rows, none with a
    date), not with an error. *)
Lemma reversed_range_not_refused :
  let w := snd (AttendanceService.checkIn utcDefault 7 "Eve Anderson"
                  (setClock (jan15 8 45 0) office)) in
  let response := fst (AttendanceController.getReports (Some 19768) (Some 19737)
                         (setClock (jan15 12 0 0) w)) in
  19737 < 19768
  /\ (forall code error, response <> Status code error)
  /\ match response with
     | Ok report =>
         startDate report = 19768 /\ endDate report = 19737
         /\ length (records report) = 10%nat
         /\ forallb (fun r => negb (bool_decide (is_Some (r_date r))))
              (records report) = true
     | Status _ _ => False
     end.
Proof.
  intros w response. split; [reflexivity|].
  assert (H : exists report, response = Ok report) by (eexists; vm_compute; reflexivity).
  destruct H as [report Hr]. split; [intros; rewrite Hr; discriminate|].
  clear Hr report. vm_compute. repeat split; reflexivity.
Qed.

Lemma checkIn_resolved (cfg : Config) (userId : Z) (userName : string)
    (w w' : World) (result : CheckInResult) :
  AttendanceService.checkIn cfg userId userName w = (Resolved result, w') ->
  (forall s e, keyspace (redis w') !! ReportKey s e
               = keyspace (redis w) !! ReportKey s e)
  /\ hasEmployee userId (mysql w') = true
  /\ recordsFor userId (Clock.getTodayDate (clock w)) (mysql w') <> []
  /\ (forall a, a ∈ recordsFor userId (Clock.getTodayDate (clock w)) (mysql w') ->
                check_in_time a = Some (clock w)).
Proof.
  rewrite checkIn_paths. cbn zeta.
  destruct (RedisClient.get _ _ _); [discriminate|].
  destruct (MySQL.insertAttendance _ _ _ _) as [db|] eqn:Hins; [|discriminate].
  destruct (insertAttendance_recordsFor _ _ _ _ _ Hins)
    as (Hemp & Hsame & Hne & Hall & _).
  assert (Hw2 : forall w2,
    mysql w2 = db ->
    keyspace (redis w2)
    = <[CheckinKey userId (Clock.getTodayDate (clock w))
        := (IsoString (clock w), clock w + 86400 * 1000)]> (keyspace (redis w)) ->
    (forall s e, keyspace (redis w2) !! ReportKey s e
                 = keyspace (redis w) !! ReportKey s e)
    /\ hasEmployee userId (mysql w2) = true
    /\ recordsFor userId (Clock.getTodayDate (clock w)) (mysql w2) <> []
    /\ (forall a, a ∈ recordsFor userId (Clock.getTodayDate (clock w)) (mysql w2) ->
                  check_in_time a = Some (clock w))).
  { intros w2 -> Hks. split.
    - intros s e. rewrite Hks. by apply lookup_insert_ne.
    - split; [|by split].
      unfold hasEmployee in *. by rewrite Hsame. }
  destruct (Clock.isLate cfg (clock w)).
  - destruct (queueReady w); [|discriminate].
    intros [= _ <-]. by apply Hw2.
  - intros [= _ <-]. by apply Hw2.
Qed.




(** ** Further properties of the service *)

(** [checkOut] with its awaits run in sequence, path by path. *)
Lemma checkOut_paths (userId : Z) (w : World) :
  AttendanceService.checkOut userId w =
  let today := Clock.getTodayDate (clock w) in
  let w1 := logSql (UpdateCheckOut (clock w) userId today) w in
  match recordsFor userId today (mysql w) with
  | [] => (Rejected (Error "No check-in record found for today"), w1)
  | _ :: _ =>
      (Resolved {| checkOutMessage := "Checked out successfully";
                   checkOutTime := clock w |},
       setRedis (fst (RedisClient.sRem userId (redis w)))
         (setMysql (fst (MySQL.updateCheckOut (clock w) userId today (mysql w)))
            w1))
  end.
Proof.
  unfold recordsFor. unfold_async. cbn.
  destruct (List.filter _ (attendance (mysql w))) as [|a rows] eqn:Hrows.
  - cbn. rewrite (update_absent _ _ _ Hrows), withAttendance_same.
    by destruct w.
  - reflexivity.
Qed.

Lemma currentEmployees_paths (w : World) :
  exists rows w',
    AttendanceService.getCurrentEmployeesInOffice w = (Resolved rows, w')
    /\ mysql w' = mysql w /\ redis w' = redis w
    /\ emailQueue w' = emailQueue w
    /\ (forall e, e ∈ rows <->
                  e ∈ employees (mysql w) /\ id e ∈ employees_in_office (redis w)).
Proof.
  unfold_async. unfold RedisClient.sMembers. cbv beta.
  destruct (elements (employees_in_office (redis w))) as [|m ms] eqn:Hel.
  - exists [], w. split; [reflexivity|]. do 3 (split; [done|]).
    intros e. split.
    + intros He. by apply elem_of_nil in He.
    + intros [_ Hin]. apply elem_of_elements in Hin. rewrite Hel in Hin.
      by apply elem_of_nil in Hin.
  - eexists. eexists. split; [reflexivity|]. do 3 (split; [done|]).
    intros e. rewrite <- Hel. apply selectEmployeesIn_spec.
Qed.

Lemma hasEmployee_elem_of (userId : Z) (db : Database) :
  hasEmployee userId db = true <-> exists e, e ∈ employees db /\ id e = userId.
Proof.
  unfold hasEmployee. rewrite existsb_exists. split.
  - intros (e & He & Hid%Z.eqb_eq). exists e. by rewrite list_elem_of_In.
  - intros (e & He & Hid). exists e. rewrite <- list_elem_of_In, Z.eqb_eq. done.
Qed.

Lemma recordsFor_elem_of (userId d : Z) (db : Database) (a : Attendance) :
  a ∈ recordsFor userId d db
  <-> a ∈ attendance db /\ employee_id a = userId /\ date a = d.
Proof.
  unfold recordsFor. rewrite list_elem_of_In, filter_In, <- list_elem_of_In, hasKey_true.
  split; [intros [? [= ? ?]]; done | intros (? & -> & ->); done].
Qed.

Lemma recordsFor_nonempty (userId d : Z) (db : Database) :
  recordsFor userId d db <> []
  <-> exists a, a ∈ attendance db /\ employee_id a = userId /\ date a = d.
Proof.
  split.
  - destruct (recordsFor userId d db) as [|a rows] eqn:Hr; [done|]. intros _.
    exists a. apply recordsFor_elem_of. rewrite Hr. apply list_elem_of_here.
  - intros (a & Ha). apply recordsFor_elem_of in Ha. intros Hnil.
    rewrite Hnil in Ha. by apply elem_of_nil in Ha.
Qed.

(** Rows of another employee or day, under an update by key. *)
Lemma recordsFor_update_other (userId d userId' d' : Z) (g : Attendance -> Attendance)
    (rows : list Attendance) :
  (userId', d') <> (userId, d) ->
  (forall a, MySQL.hasKey userId' d' (g a) = MySQL.hasKey userId' d' a) ->
  List.filter (MySQL.hasKey userId' d')
    (map (fun a => if MySQL.hasKey userId d a then g a else a) rows)
  = List.filter (MySQL.hasKey userId' d') rows.
Proof.
  intros Hne Hg. induction rows as [|a rows IH]; [reflexivity|]. cbn.
  destruct (MySQL.hasKey userId d a) eqn:Hk.
  - rewrite Hg. apply hasKey_true in Hk.
    destruct (MySQL.hasKey userId' d' a) eqn:Hk'.
    + apply hasKey_true in Hk'. congruence.
    + exact IH.
  - destruct (MySQL.hasKey userId' d' a); by rewrite IH.
Qed.

Lemma insertAttendance_other (userId d t userId' d' : Z) (db db' : Database) :
  MySQL.insertAttendance userId d t db = Some db' ->
  (userId', d') <> (userId, d) ->
  recordsFor userId' d' db' = recordsFor userId' d' db.
Proof.
  unfold MySQL.insertAttendance, recordsFor.
  destruct (existsb _ (employees db)); [|discriminate].
  intros [= <-] Hne. cbn [attendance MySQL.withAttendance].
  destruct (existsb (MySQL.hasKey userId d) (attendance db)).
  - by apply recordsFor_update_other.
  - rewrite List.filter_app. cbn.
    destruct (MySQL.hasKey userId' d' _) eqn:Hk; [|apply app_nil_r].
    apply hasKey_true in Hk. cbn in Hk. congruence.
Qed.

Lemma insertAttendance_length (userId d t : Z) (db db' : Database) :
  MySQL.insertAttendance userId d t db = Some db' ->
  (length (attendance db) <= length (attendance db'))%nat
  /\ employees db' = employees db.
Proof.
  unfold MySQL.insertAttendance.
  destruct (existsb _ (employees db)); [|discriminate].
  intros [= <-]. cbn [attendance employees MySQL.withAttendance]. split; [|done].
  destruct (existsb _ (attendance db)).
  - by rewrite length_map.
  - rewrite length_app. cbn. lia.
Qed.

(** X2. A check-in for a user id with no row in [employees] that passes the
    duplicate guard is rejected by the foreign key: the controller answers
    500 "Check-in failed"; the INSERT is the only statement sent and nothing
    is stored: the table, the Redis keys, the presence set and the queue are
    as before. *)
Theorem checkIn_unknown_employee (cfg : Config) (userId : Z) (userName : string)
    (w : World) :
  hasEmployee userId (mysql w) = false ->
  RedisClient.get (clock w) (CheckinKey userId (Clock.getTodayDate (clock w)))
    (redis w) = None ->
  let w' := logSql (InsertAttendance userId (Clock.getTodayDate (clock w))
                      (clock w)) w in
  AttendanceController.checkIn cfg userId userName w
  = (Status 500 "Check-in failed", w')
  /\ mysql w' = mysql w /\ redis w' = redis w /\ emailQueue w' = emailQueue w.
Proof.
  intros Hemp Hmiss w'. unfold AttendanceController.checkIn.
  rewrite checkIn_paths. cbn zeta. rewrite Hmiss.
  unfold MySQL.insertAttendance. unfold hasEmployee in Hemp. rewrite Hemp.
  done.
Qed.

Lemma checkIn_unknown_employee_witness :
  hasEmployee 42 (mysql office) = false
  /\ RedisClient.get (clock office)
       (CheckinKey 42 (Clock.getTodayDate (clock office))) (redis office) = None
  /\ AttendanceController.checkIn utcDefault 42 "Nobody" office
     = (Status 500 "Check-in failed", logSql (InsertAttendance 42 0 0) office).
Proof.
  split; [reflexivity|]. split; [reflexivity|].
  exact (proj1 (checkIn_unknown_employee utcDefault 42 "Nobody" office
                  eq_refl eq_refl)).
Defined.

(** X4. A check-in blocks only its own employee and day: after a check-in of
    employee [userId] on day [d], whatever its outcome, [hasCheckedInToday]
    for any other employee or any other day answers at every instant what it
    answered before. *)
Theorem checkIn_blocks_only_its_key (cfg : Config) (userId : Z)
    (userName : string) (w : World) (userId' d' now : Z) :
  (userId', d') <> (userId, Clock.getTodayDate (clock w)) ->
  fst (AttendanceService.hasCheckedInToday userId' d'
         (setClock now (snd (AttendanceService.checkIn cfg userId userName w))))
  = fst (AttendanceService.hasCheckedInToday userId' d' (setClock now w)).
Proof.
  intros Hne.
  assert (Hrec : forall db,
    RedisClient.get now (CheckinKey userId' d')
      (redis (recorded userId (Clock.getTodayDate (clock w)) (clock w) db w))
    = RedisClient.get now (CheckinKey userId' d') (redis w)).
  { intros db. unfold recorded, RedisClient.get, RedisClient.sAdd, RedisClient.setEx.
    cbn. rewrite lookup_insert_ne; [done | congruence]. }
  assert (Hget :
    RedisClient.get now (CheckinKey userId' d')
      (redis (snd (AttendanceService.checkIn cfg userId userName w)))
    = RedisClient.get now (CheckinKey userId' d') (redis w)).
  { rewrite checkIn_paths. cbn zeta.
    destruct (RedisClient.get (clock w) _ (redis w)); [done|].
    destruct (MySQL.insertAttendance _ _ _ _) as [db|]; [|done].
    destruct (Clock.isLate cfg (clock w)); [destruct (queueReady w)|];
      cbn [snd redis pushJob]; apply Hrec. }
  unfold AttendanceService.hasCheckedInToday, client.get, bind, ret.
  cbn [fst snd clock setClock redis]. by rewrite Hget.
Qed.

Lemma checkIn_blocks_only_its_key_witness :
  (7, 19738) <> (7, Clock.getTodayDate (clock (setClock (jan15 9 15 0) office)))
  /\ fst (AttendanceService.hasCheckedInToday 7 19738
            (setClock (jan15 33 0 0)
               (snd (AttendanceService.checkIn utcDefault 7 "Eve Anderson"
                       (setClock (jan15 9 15 0) office)))))
     = Resolved false.
Proof.
  assert (H : (7, 19738) <>
              (7, Clock.getTodayDate (clock (setClock (jan15 9 15 0) office))))
    by (vm_compute; congruence).
  split; [exact H|].
  rewrite (checkIn_blocks_only_its_key utcDefault 7 "Eve Anderson"
             (setClock (jan15 9 15 0) office) 7 19738 (jan15 33 0 0) H).
  reflexivity.
Defined.

(** X5. The two writing operations touch one key only and delete nothing:
    after [checkIn] or [checkOut] of an employee, whatever the outcome, the
    rows of every other employee or day are the rows that were there, the
    table has not lost a row, and [employees] is unchanged. *)
Theorem writes_touch_one_key (cfg : Config) (userId : Z) (userName : string)
    (w : World) (userId' d' : Z) :
  (userId', d') <> (userId, Clock.getTodayDate (clock w)) ->
  let afterIn := snd (AttendanceService.checkIn cfg userId userName w) in
  let afterOut := snd (AttendanceService.checkOut userId w) in
  recordsFor userId' d' (mysql afterIn) = recordsFor userId' d' (mysql w)
  /\ recordsFor userId' d' (mysql afterOut) = recordsFor userId' d' (mysql w)
  /\ (length (attendance (mysql w)) <= length (attendance (mysql afterIn)))%nat
  /\ length (attendance (mysql afterOut)) = length (attendance (mysql w))
  /\ employees (mysql afterIn) = employees (mysql w)
  /\ employees (mysql afterOut) = employees (mysql w).
Proof.
  intros Hne afterIn afterOut.
  assert (Hin : recordsFor userId' d' (mysql afterIn) = recordsFor userId' d' (mysql w)
                /\ (length (attendance (mysql w))
                    <= length (attendance (mysql afterIn)))%nat
                /\ employees (mysql afterIn) = employees (mysql w)).
  { subst afterIn. rewrite checkIn_paths. cbn zeta.
    destruct (RedisClient.get _ _ _); [done|].
    destruct (MySQL.insertAttendance _ _ _ _) as [db|] eqn:Hins; [|done].
    pose proof (insertAttendance_other _ _ _ _ _ _ _ Hins Hne) as Ho.
    pose proof (insertAttendance_length _ _ _ _ _ Hins) as [Hl He].
    destruct (Clock.isLate cfg (clock w)); [destruct (queueReady w)|]; done. }
  assert (Hout : recordsFor userId' d' (mysql afterOut) = recordsFor userId' d' (mysql w)
                 /\ length (attendance (mysql afterOut)) = length (attendance (mysql w))
                 /\ employees (mysql afterOut) = employees (mysql w)).
  { subst afterOut. rewrite checkOut_paths. cbn zeta.
    destruct (recordsFor userId _ (mysql w)); [done|].
    cbn [snd mysql setRedis setMysql fst MySQL.updateCheckOut].
    unfold recordsFor. cbn [attendance employees MySQL.withAttendance].
    split; [|split; [by rewrite length_map | done]].
    by apply recordsFor_update_other. }
  tauto.
Qed.

Lemma writes_touch_one_key_witness :
  (3, 19737) <> (7, Clock.getTodayDate (clock (setClock (jan15 9 15 0) seededToday)))
  /\ recordsFor 3 19737
       (mysql (snd (AttendanceService.checkIn utcDefault 7 "Eve Anderson"
                      (setClock (jan15 9 15 0) seededToday))))
     = recordsFor 3 19737 (mysql (setClock (jan15 9 15 0) seededToday)).
Proof.
  assert (H : (3, 19737) <>
              (7, Clock.getTodayDate (clock (setClock (jan15 9 15 0) seededToday))))
    by (vm_compute; congruence).
  split; [exact H|].
  exact (proj1 (writes_touch_one_key utcDefault 7 "Eve Anderson"
                  (setClock (jan15 9 15 0) seededToday) 3 19737 H)).
Defined.

(** *** How the operations compose *)

Lemma today_bounds (t : Z) :
  Clock.getTodayDate t * Clock.msPerDay <= t
  < (Clock.getTodayDate t + 1) * Clock.msPerDay.
Proof.
  unfold Clock.getTodayDate.
  pose proof (Z.div_mod t Clock.msPerDay) as H.
  pose proof (Z.mod_pos_bound t Clock.msPerDay) as B.
  change Clock.msPerDay with 86400000 in *. lia.
Qed.

Lemma claimed_get (userId d now : Z) (w : World) :
  claimed userId d w -> Clock.getTodayDate now = d ->
  exists v, RedisClient.get now (CheckinKey userId d) (redis w) = Some v.
Proof.
  intros (v & expiresAt & Hk & Hexp) Hd. exists v.
  unfold RedisClient.get. rewrite Hk.
  pose proof (today_bounds now) as Hb. rewrite Hd in Hb.
  destruct (now <=? expiresAt) eqn:E; [done | lia].
Qed.

Lemma recorded_claimed (userId t : Z) (db : Database) (w : World) :
  claimed userId (Clock.getTodayDate t)
    (recorded userId (Clock.getTodayDate t) t db w).
Proof.
  exists (IsoString t), (t + 86400 * 1000). split.
  - unfold recorded. cbn. apply lookup_insert_eq.
  - pose proof (today_bounds t). change Clock.msPerDay with 86400000 in *. lia.
Qed.

Lemma recorded_claimed_other (userId t userId' d' : Z) (db : Database) (w : World) :
  claimed userId' d' w ->
  claimed userId' d' (recorded userId (Clock.getTodayDate t) t db w).
Proof.
  intros Hc.
  destruct (decide ((userId', d') = (userId, Clock.getTodayDate t))) as [[= -> ->]|Hne].
  - apply recorded_claimed.
  - destruct Hc as (v & expiresAt & Hk & Hexp). exists v, expiresAt.
    split; [|exact Hexp]. unfold recorded. cbn.
    rewrite lookup_insert_ne; [exact Hk | congruence].
Qed.

Lemma claimed_same_keys (userId d : Z) (w w' : World) :
  keyspace (redis w') !! CheckinKey userId d
  = keyspace (redis w) !! CheckinKey userId d ->
  claimed userId d w -> claimed userId d w'.
Proof. intros Hk (v & e & Hv & He). exists v, e. by rewrite Hk. Qed.

(** A request never releases a check-in key. *)
Lemma handle_claimed (cfg : Config) (t : Z) (r : Request) (w : World)
    (userId d : Z) :
  claimed userId d w -> claimed userId d (handle cfg t r w).
Proof.
  intros Hc. destruct r as [u n|u| |s e]; cbn [handle].
  - rewrite checkIn_paths. cbn zeta. cbn [clock setClock redis mysql queueReady].
    destruct (RedisClient.get _ _ _); [exact Hc|].
    destruct (MySQL.insertAttendance _ _ _ _) as [db|]; [|exact Hc].
    assert (Hrec : claimed userId d
                     (recorded u (Clock.getTodayDate t) t db (setClock t w)))
      by (by apply recorded_claimed_other).
    destruct (Clock.isLate cfg t); [destruct (queueReady w)|]; exact Hrec.
  - rewrite checkOut_paths. cbn zeta.
    destruct (recordsFor _ _ _); exact Hc.
  - destruct (currentEmployees_paths (setClock t w)) as (rows & w' & -> & _ & Hr & _).
    cbn [snd]. eapply claimed_same_keys; [|exact Hc]. by rewrite Hr.
  - unfold_async. cbv beta. cbn [clock setClock redis].
    destruct (RedisClient.get _ _ _) as [[iso|cached]|]; cbn [snd]; try exact Hc.
    eapply claimed_same_keys; [|exact Hc]. cbn. by rewrite lookup_insert_ne.
Qed.

Lemma handleAll_claimed (cfg : Config) (trace : list (Z * Request)) (w : World)
    (userId d : Z) :
  claimed userId d w -> claimed userId d (handleAll cfg trace w).
Proof.
  revert w. induction trace as [|[t r] rest IH]; intros w Hc; cbn; [exact Hc|].
  by apply IH, handle_claimed.
Qed.

(** X1. One check-in per employee and day, for requests served one after the
    other: once a check-in has succeeded, whatever requests are served
    afterwards (check-outs of the same employee included), every later
    check-in of that employee at an instant of the same day is answered
    400 "Already checked in today" and changes nothing. *)
Theorem checkIn_once_per_day (cfg : Config) (userId : Z) (userName other : string)
    (w w1 : World) (result : CheckInResult) (trace : list (Z * Request)) (t2 : Z) :
  AttendanceService.checkIn cfg userId userName w = (Resolved result, w1) ->
  Clock.getTodayDate t2 = Clock.getTodayDate (clock w) ->
  AttendanceController.checkIn cfg userId other
    (setClock t2 (handleAll cfg trace w1))
  = (Status 400 "Already checked in today",
     setClock t2 (handleAll cfg trace w1)).
Proof.
  intros Hfirst Hday.
  assert (Hc : claimed userId (Clock.getTodayDate (clock w)) w1).
  { rewrite checkIn_paths in Hfirst. cbn zeta in Hfirst.
    destruct (RedisClient.get _ _ _); [discriminate|].
    destruct (MySQL.insertAttendance _ _ _ _) as [db|]; [|discriminate].
    pose proof (recorded_claimed userId (clock w) db w) as Hrec.
    destruct (Clock.isLate cfg (clock w)); [destruct (queueReady w)|];
      try discriminate; injection Hfirst as _ <-; exact Hrec. }
  apply (handleAll_claimed cfg trace) in Hc.
  destruct (claimed_get _ _ t2 _ Hc Hday) as [v Hv].
  unfold AttendanceController.checkIn. rewrite checkIn_paths. cbn zeta.
  cbn [clock setClock redis]. rewrite Hday, Hv. reflexivity.
Qed.

Lemma checkIn_once_per_day_witness :
  let w := setClock (jan15 8 45 0) office in
  exists result w1,
    AttendanceService.checkIn utcDefault 7 "Eve Anderson" w = (Resolved result, w1)
    /\ Clock.getTodayDate (jan15 18 0 0) = Clock.getTodayDate (clock w)
    /\ fst (AttendanceController.checkIn utcDefault 7 "Eve Anderson"
              (setClock (jan15 18 0 0)
                 (handleAll utcDefault [(jan15 17 0 0, CheckOutRequest 7)] w1)))
       = Status 400 "Already checked in today".
Proof.
  intros w.
  assert (H : exists result w1,
             AttendanceService.checkIn utcDefault 7 "Eve Anderson" w
             = (Resolved result, w1))
    by (eexists; eexists; vm_compute; reflexivity).
  destruct H as (result & w1 & H). exists result, w1.
  assert (Hd : Clock.getTodayDate (jan15 18 0 0) = Clock.getTodayDate (clock w))
    by reflexivity.
  split; [exact H|]. split; [exact Hd|].
  by rewrite (checkIn_once_per_day utcDefault 7 "Eve Anderson" "Eve Anderson"
                w w1 result [(jan15 17 0 0, CheckOutRequest 7)] (jan15 18 0 0) H Hd).
Defined.

(** X3. The presence view follows the writes: right after a check-in that
    succeeded, [getCurrentEmployeesInOffice] returns the [employees] row of
    that employee; right after a check-out that succeeded, it returns no row
    of that employee. *)
Theorem presence_follows_writes (cfg : Config) (userId : Z) (userName : string)
    (w : World) :
  (forall result w1,
     AttendanceService.checkIn cfg userId userName w = (Resolved result, w1) ->
     exists rows w',
       AttendanceService.getCurrentEmployeesInOffice w1 = (Resolved rows, w')
       /\ exists e, e ∈ rows /\ id e = userId)
  /\ (forall result w1,
        AttendanceService.checkOut userId w = (Resolved result, w1) ->
        exists rows w',
          AttendanceService.getCurrentEmployeesInOffice w1 = (Resolved rows, w')
          /\ forall e, e ∈ rows -> id e <> userId).
Proof.
  split.
  - intros result w1 Hin.
    destruct (currentEmployees_paths w1) as (rows & w' & Hcur & _ & _ & _ & Hrows).
    exists rows, w'. split; [exact Hcur|].
    destruct (checkIn_resolved _ _ _ _ _ _ Hin) as (_ & Hemp & _).
    apply hasEmployee_elem_of in Hemp as (e & He & Hid).
    exists e. split; [|exact Hid]. apply Hrows. split; [exact He|].
    rewrite Hid. clear Hrows Hcur.
    rewrite checkIn_paths in Hin. cbn zeta in Hin.
    destruct (RedisClient.get _ _ _); [discriminate|].
    destruct (MySQL.insertAttendance _ _ _ _) as [db|]; [|discriminate].
    assert (Hset : userId ∈ employees_in_office
              (redis (recorded userId (Clock.getTodayDate (clock w)) (clock w) db w))).
    { unfold recorded. cbn. apply elem_of_union_l, elem_of_singleton. reflexivity. }
    destruct (Clock.isLate cfg (clock w)); [destruct (queueReady w)|];
      try discriminate; injection Hin as _ <-; exact Hset.
  - intros result w1 Hout.
    destruct (currentEmployees_paths w1) as (rows & w' & Hcur & _ & _ & _ & Hrows).
    exists rows, w'. split; [exact Hcur|].
    intros e [_ Hin]%Hrows Hid.
    rewrite checkOut_paths in Hout. cbn zeta in Hout.
    destruct (recordsFor _ _ _); [discriminate|].
    injection Hout as _ <-. cbn in Hin.
    apply elem_of_difference in Hin as [_ Hnot]. apply Hnot, elem_of_singleton.
    exact Hid.
Qed.

Lemma presence_follows_writes_witness :
  let w := setClock (jan15 8 45 0) office in
  exists resultIn w1 resultOut w2,
    AttendanceService.checkIn utcDefault 7 "Eve Anderson" w = (Resolved resultIn, w1)
    /\ AttendanceService.checkOut 7 (setClock (jan15 17 0 0) w1)
       = (Resolved resultOut, w2)
    /\ (exists rows w', AttendanceService.getCurrentEmployeesInOffice w1
                        = (Resolved rows, w')
                        /\ exists e, e ∈ rows /\ id e = 7)
    /\ (exists rows w', AttendanceService.getCurrentEmployeesInOffice w2
                        = (Resolved rows, w')
                        /\ forall e, e ∈ rows -> id e <> 7).
Proof.
  intros w.
  assert (H : exists resultIn w1 resultOut w2,
             AttendanceService.checkIn utcDefault 7 "Eve Anderson" w
             = (Resolved resultIn, w1)
             /\ AttendanceService.checkOut 7 (setClock (jan15 17 0 0) w1)
                = (Resolved resultOut, w2)).
  { eexists. eexists. eexists. eexists. split; vm_compute; reflexivity. }
  destruct H as (resultIn & w1 & resultOut & w2 & Hin & Hout).
  exists resultIn, w1, resultOut, w2. split; [exact Hin|]. split; [exact Hout|].
  split.
  - exact (proj1 (presence_follows_writes utcDefault 7 "Eve Anderson" w)
             resultIn w1 Hin).
  - exact (proj2 (presence_follows_writes utcDefault 7 "Eve Anderson"
                    (setClock (jan15 17 0 0) w1)) resultOut w2 Hout).
Defined.

Lemma reads_keep_stores (startDate endDate : Z) (w : World) :
  let afterCurrent := snd (AttendanceService.getCurrentEmployeesInOffice w) in
  let afterReport :=
    snd (AttendanceService.getAttendanceReport startDate endDate w) in
  (mysql afterCurrent = mysql w /\ redis afterCurrent = redis w
   /\ emailQueue afterCurrent = emailQueue w)
  /\ mysql afterReport = mysql w
  /\ employees_in_office (redis afterReport) = employees_in_office (redis w)
  /\ emailQueue afterReport = emailQueue w
  /\ forall key, key <> ReportKey startDate endDate ->
                 keyspace (redis afterReport) !! key = keyspace (redis w) !! key.
Proof.
  intros afterCurrent afterReport. split.
  - subst afterCurrent.
    destruct (currentEmployees_paths w) as (rows & w' & -> & ? & ? & ? & _). done.
  - subst afterReport. unfold_async. cbv beta.
    destruct (RedisClient.get _ _ _) as [[iso|cached]|]; cbn; try done.
    repeat split. intros key Hkey. by rewrite lookup_insert_ne.
Qed.

(** X7. The two reading operations write nothing but the report cache:
    [getCurrentEmployeesInOffice] leaves MySQL, Redis and the queue as they
    are; [getAttendanceReport], whatever its outcome, leaves MySQL, the
    presence set, the queue and every Redis key other than the report key of
    its own range as they are. *)
Theorem reads_write_nothing (startDate endDate : Z) (w : World) :
  let afterCurrent := snd (AttendanceService.getCurrentEmployeesInOffice w) in
  let afterReport :=
    snd (AttendanceService.getAttendanceReport startDate endDate w) in
  (mysql afterCurrent = mysql w /\ redis afterCurrent = redis w
   /\ emailQueue afterCurrent = emailQueue w)
  /\ mysql afterReport = mysql w
  /\ employees_in_office (redis afterReport) = employees_in_office (redis w)
  /\ emailQueue afterReport = emailQueue w
  /\ forall key, key <> ReportKey startDate endDate ->
                 keyspace (redis afterReport) !! key = keyspace (redis w) !! key.
Proof. apply reads_keep_stores. Qed.



(** *** What the stores keep *)

Lemma consistent_later (now t : Z) (w : World) :
  Consistent now w -> now <= t -> Consistent t w.
Proof.
  intros [Hu Hf Hc Hk Ho Hp Hj] Hle. split; try done.
  - intros a Ha. destruct (Hc a Ha) as (ti & ? & ? & ?). exists ti.
    split; [done|]. split; [lia | done].
  - intros a tIn tOut Ha HtIn HtOut. pose proof (Ho a tIn tOut Ha HtIn HtOut). lia.
Qed.

(** Consistency looks at the tables, the check-in keys, the presence set
    and the queue only. *)
Lemma consistent_same (now : Z) (w w' : World) :
  mysql w' = mysql w ->
  employees_in_office (redis w') = employees_in_office (redis w) ->
  (forall userId d, keyspace (redis w') !! CheckinKey userId d
                    = keyspace (redis w) !! CheckinKey userId d) ->
  emailQueue w' = emailQueue w ->
  Consistent now w -> Consistent now w'.
Proof.
  intros Hm Hs Hks Hq [Hu Hf Hc Hk Ho Hp Hj].
  split; rewrite ?Hm, ?Hs; try done.
  - intros a Ha. eapply claimed_same_keys; [apply Hks | by apply Hk].
  - unfold jobsNonNegative. by rewrite Hq.
Qed.

Lemma consistent_no_row_without_key (now t userId : Z) (w : World) :
  Consistent now w ->
  RedisClient.get t (CheckinKey userId (Clock.getTodayDate t)) (redis w) = None ->
  recordsFor userId (Clock.getTodayDate t) (mysql w) = [].
Proof.
  intros Hcons Hmiss.
  destruct (recordsFor userId (Clock.getTodayDate t) (mysql w)) as [|a rows] eqn:Hr;
    [reflexivity|].
  assert (Ha : a ∈ recordsFor userId (Clock.getTodayDate t) (mysql w))
    by (rewrite Hr; apply list_elem_of_here).
  apply recordsFor_elem_of in Ha as (Hain & Hau & Had).
  pose proof (rows_claimed _ _ Hcons a Hain) as Hc. rewrite Hau, Had in Hc.
  destruct (claimed_get _ _ t _ Hc eq_refl) as [v Hv]. congruence.
Qed.

Lemma consistent_recorded (cfg : Config) (now t userId : Z) (db : Database)
    (w : World) :
  Consistent now w -> now <= t ->
  recordsFor userId (Clock.getTodayDate t) (mysql w) = [] ->
  MySQL.insertAttendance userId (Clock.getTodayDate t) t (mysql w) = Some db ->
  Consistent t (recorded userId (Clock.getTodayDate t) t db (setClock t w)).
Proof.
  intros Hcons Hle Hnone Hins.
  pose proof Hcons as [Hu Hf Hc Hk Ho Hp Hj].
  pose proof (insertAttendance_uniqueKey _ _ _ _ _ Hins Hu) as Hu'.
  set (today := Clock.getTodayDate t) in *.
  assert (Hdb : attendance db = attendance (mysql w) ++
                  [{| employee_id := userId; date := today;
                      check_in_time := Some t; check_out_time := None |}]
                /\ employees db = employees (mysql w)
                /\ hasEmployee userId (mysql w) = true).
  { unfold MySQL.insertAttendance in Hins. unfold hasEmployee.
    destruct (existsb _ (employees (mysql w))); [|discriminate].
    injection Hins as <-. cbn.
    unfold recordsFor in Hnone. apply filter_nil_existsb in Hnone.
    by rewrite Hnone. }
  destruct Hdb as (Hrows & Hemps & Hemp).
  assert (Hsame : forall u, hasEmployee u db = hasEmployee u (mysql w))
    by (intros u; unfold hasEmployee; by rewrite Hemps).
  split; unfold recorded; cbn [mysql redis emailQueue setRedis setMysql logSql setClock].
  - exact Hu'.
  - intros a. rewrite Hrows, elem_of_app, list_elem_of_singleton, Hsame.
    intros [Ha| ->]; [by apply Hf | exact Hemp].
  - intros a. rewrite Hrows, elem_of_app, list_elem_of_singleton.
    intros [Ha| ->].
    + destruct (Hc a Ha) as (ti & ? & ? & ?). exists ti. split; [done|]. split; [lia|done].
    + exists t. cbn. split; [done|]. split; [lia | done].
  - intros a. rewrite Hrows, elem_of_app, list_elem_of_singleton.
    intros [Ha| ->].
    + apply (recorded_claimed_other userId t _ _ db (setClock t w)).
      eapply claimed_same_keys; [|by apply Hk]. done.
    + apply (recorded_claimed userId t db (setClock t w)).
  - intros a tIn tOut. rewrite Hrows, elem_of_app, list_elem_of_singleton.
    intros [Ha| ->] HtIn HtOut; [|discriminate].
    pose proof (Ho a tIn tOut Ha HtIn HtOut). lia.
  - intros u. cbn. rewrite elem_of_union, elem_of_singleton.
    intros [->|Hu0].
    + eexists. rewrite Hrows, elem_of_app, list_elem_of_singleton.
      split; [right; reflexivity|]. done.
    + destruct (Hp u Hu0) as (a & Ha & ? & ?). exists a.
      rewrite Hrows, elem_of_app. by split; [left|].
  - exact Hj.
Qed.

Lemma consistent_checkIn (cfg : Config) (now t userId : Z) (userName : string)
    (w : World) :
  Consistent now w -> now <= t ->
  Consistent t (snd (AttendanceService.checkIn cfg userId userName (setClock t w))).
Proof.
  intros Hcons Hle.
  assert (Hw0 : Consistent t (setClock t w))
    by (eapply consistent_same; [..|by eapply consistent_later]; done).
  rewrite checkIn_paths. cbn zeta. cbn [clock setClock redis mysql queueReady].
  destruct (RedisClient.get _ _ _) eqn:Hget; [exact Hw0|].
  destruct (MySQL.insertAttendance _ _ _ _) as [db|] eqn:Hins.
  - pose proof (consistent_no_row_without_key _ _ _ _ Hcons Hget) as Hnone.
    pose proof (consistent_recorded cfg _ _ _ _ _ Hcons Hle Hnone Hins) as Hrec.
    destruct (Clock.isLate cfg t) eqn:Hlate; [destruct (queueReady w)|];
      cbn [snd]; try exact Hrec.
    destruct Hrec as [Hu Hf Hc Hk Ho Hp Hj]. split; try done.
    unfold jobsNonNegative. cbn. apply Forall_app. split; [exact Hj|].
    apply Forall_singleton. cbn. by apply minutesLate_nonneg_of_late.
  - cbn [snd]. eapply consistent_same; [..|exact Hw0]; done.
Qed.

Lemma consistent_checkOut (now t userId : Z) (w : World) :
  Consistent now w -> now <= t ->
  Consistent t (snd (AttendanceService.checkOut userId (setClock t w))).
Proof.
  intros Hcons Hle.
  assert (Hw0 : Consistent t (setClock t w))
    by (eapply consistent_same; [..|by eapply consistent_later]; done).
  rewrite checkOut_paths. cbn zeta. cbn [clock setClock redis mysql].
  set (today := Clock.getTodayDate t).
  destruct (recordsFor userId today (mysql w)) as [|a0 rows0];
    [cbn [snd]; eapply consistent_same; [..|exact Hw0]; done|].
  cbn [snd]. pose proof Hcons as [Hu Hf Hc Hk Ho Hp Hj].
  set (upd := fun a => if MySQL.hasKey userId today a
                       then MySQL.setCheckOut t a else a).
  assert (Hkeep : forall a, employee_id (upd a) = employee_id a
                            /\ date (upd a) = date a
                            /\ check_in_time (upd a) = check_in_time a).
  { intros a. unfold upd. by destruct (MySQL.hasKey userId today a). }
  assert (Hmem : forall a', a' ∈ map upd (attendance (mysql w)) ->
                            exists a, a ∈ attendance (mysql w) /\ a' = upd a).
  { intros a' Ha'. apply list_elem_of_fmap in Ha' as (a & -> & Ha). by exists a. }
  split; cbn [mysql redis emailQueue setRedis setMysql logSql setClock fst
              MySQL.updateCheckOut RedisClient.sRem attendance employees
              MySQL.withAttendance keyspace employees_in_office].
  - by apply (updateCheckOut_uniqueKey t userId today (mysql w)).
  - intros a' (a & Ha & ->)%Hmem. destruct (Hkeep a) as (-> & _). by apply Hf.
  - intros a' (a & Ha & ->)%Hmem. destruct (Hkeep a) as (_ & -> & ->).
    destruct (Hc a Ha) as (ti & ? & ? & ?). exists ti. split; [done|]. split; [lia|done].
  - intros a' (a & Ha & ->)%Hmem. destruct (Hkeep a) as (-> & -> & _).
    eapply claimed_same_keys; [|by apply Hk]. done.
  - intros a' tIn tOut (a & Ha & ->)%Hmem.
    destruct (Hkeep a) as (_ & _ & ->). intros HtIn. unfold upd.
    destruct (MySQL.hasKey userId today a).
    + cbn. intros [= <-]. destruct (Hc a Ha) as (ti & Hti & ? & ?).
      assert (ti = tIn) by congruence. lia.
    + intros HtOut. pose proof (Ho a tIn tOut Ha HtIn HtOut). lia.
  - intros u [Hu0 Hne]%elem_of_difference.
    destruct (Hp u Hu0) as (a & Ha & Hau & Hopen). exists a.
    assert (Hk0 : MySQL.hasKey userId today a = false).
    { apply not_true_is_false. intros [= Hx _]%hasKey_true.
      apply Hne, elem_of_singleton. congruence. }
    split; [|done].
    apply (list_elem_of_fmap_2 upd) in Ha. unfold upd at 1 in Ha.
    by rewrite Hk0 in Ha.
  - exact Hj.
Qed.

Lemma consistent_handle (cfg : Config) (now t : Z) (r : Request) (w : World) :
  Consistent now w -> now <= t -> Consistent t (handle cfg t r w).
Proof.
  intros Hcons Hle. destruct r as [u n|u| |s e]; cbn [handle].
  - by eapply consistent_checkIn.
  - by eapply consistent_checkOut.
  - destruct (reads_keep_stores 0 0 (setClock t w)) as [(Hm & Hr & Hq) _].
    eapply consistent_same; [exact Hm | by rewrite Hr | by rewrite Hr | exact Hq |].
    eapply consistent_same; [..|by eapply consistent_later]; done.
  - destruct (reads_keep_stores s e (setClock t w)) as [_ (Hm & Hs & Hq & Hks)].
    eapply consistent_same; [exact Hm | exact Hs | | exact Hq |].
    + intros u d. by apply Hks.
    + eapply consistent_same; [..|by eapply consistent_later]; done.
Qed.

Lemma consistent_handleAll (cfg : Config) (trace : list (Z * Request))
    (now : Z) (w : World) :
  Consistent now w -> inOrder now trace ->
  exists last, now <= last /\ Consistent last (handleAll cfg trace w).
Proof.
  revert now w. induction trace as [|[t r] rest IH]; intros now w Hcons Hord; cbn.
  - exists now. split; [lia | exact Hcons].
  - destruct Hord as [Hle Hrest].
    destruct (IH t (handle cfg t r w)) as (last & Hl & Hlast);
      [by eapply consistent_handle | exact Hrest |].
    exists last. split; [lia | exact Hlast].
Qed.

Lemma consistent_empty (c : Z) (db : Database) (log : list Statement)
    (ready : bool) :
  attendance db = [] ->
  Consistent c {| clock := c; mysql := db; sqlLog := log;
                  redis := {| keyspace := ∅; employees_in_office := ∅ |};
                  emailQueue := []; queueReady := ready |}.
Proof.
  intros Hnone. split; cbn; rewrite ?Hnone.
  - apply NoDup_nil_2.
  - intros a Ha. by apply elem_of_nil in Ha.
  - intros a Ha. by apply elem_of_nil in Ha.
  - intros a Ha. by apply elem_of_nil in Ha.
  - intros a tIn tOut Ha. by apply elem_of_nil in Ha.
  - intros u Hu. by apply not_elem_of_empty in Hu.
  - apply Forall_nil_2.
Qed.

Lemma consistent_fresh (now : Z) (w : World) :
  attendance (mysql w) = [] ->
  employees_in_office (redis w) = ∅ ->
  emailQueue w = [] ->
  Consistent now w.
Proof.
  intros Hrows Hset Hq. split; rewrite ?Hrows, ?Hset.
  - apply NoDup_nil_2.
  - intros a Ha. by apply elem_of_nil in Ha.
  - intros a Ha. by apply elem_of_nil in Ha.
  - intros a Ha. by apply elem_of_nil in Ha.
  - intros a tIn tOut Ha. by apply elem_of_nil in Ha.
  - intros u Hu. by apply not_elem_of_empty in Hu.
  - unfold jobsNonNegative. rewrite Hq. apply Forall_nil_2.
Qed.

(** X10. What the service keeps, for a WORK_START_TIME that is unset or
    reads HH:MM in range and requests served one after the other at instants
    that do not go back, starting from fresh stores (no attendance row,
    nobody in the presence set, no job): at most one row per employee and
    day; every row belongs to an employee, has a check-in time, and has its
    check-in key set until the end of its day; a check-out time is never
    earlier than the check-in time of its row; every member of the presence
    set has a row with no check-out; every queued job has a non-negative
    [minutesLate]. *)
Theorem served_requests_keep_consistency (cfg : Config)
    (trace : list (Z * Request)) (now : Z) (w : World) :
  validStart cfg ->
  attendance (mysql w) = [] ->
  employees_in_office (redis w) = ∅ ->
  emailQueue w = [] ->
  inOrder now trace ->
  let w' := handleAll cfg trace w in
  uniqueKey (attendance (mysql w'))
  /\ (forall a, a ∈ attendance (mysql w') ->
                hasEmployee (employee_id a) (mysql w') = true
                /\ is_Some (check_in_time a)
                /\ claimed (employee_id a) (date a) w')
  /\ (forall a tIn tOut, a ∈ attendance (mysql w') ->
                         check_in_time a = Some tIn ->
                         check_out_time a = Some tOut -> tIn <= tOut)
  /\ (forall userId, userId ∈ employees_in_office (redis w') ->
                     exists a, a ∈ attendance (mysql w')
                               /\ employee_id a = userId
                               /\ check_out_time a = None)
  /\ jobsNonNegative w'.
Proof.
  intros _ Hrows Hset Hq Hord w'.
  destruct (consistent_handleAll cfg trace now w) as (last & _ & Hlast);
    [by apply consistent_fresh | exact Hord |].
  fold w' in Hlast. destruct Hlast as [Hu Hf Hc Hk Ho Hp Hj].
  split; [exact Hu|]. split; [|split; [|split; [exact Hp | exact Hj]]].
  - intros a Ha. split; [by apply Hf|]. split; [|by apply Hk].
    destruct (Hc a Ha) as (t & -> & _). by eexists.
  - intros a tIn tOut Ha HtIn HtOut. pose proof (Ho a tIn tOut Ha HtIn HtOut). lia.
Qed.

Lemma served_requests_keep_consistency_witness :
  validStart utcDefault
  /\ attendance (mysql office) = []
  /\ employees_in_office (redis office) = ∅
  /\ emailQueue office = []
  /\ inOrder 0 [(jan15 8 45 0, CheckInRequest 7 "Eve Anderson");
                (jan15 9 15 0, CheckInRequest 3 "Alice Smith");
                (jan15 12 0 0, ReportRequest 19737 19737);
                (jan15 17 0 0, CheckOutRequest 7);
                (jan15 17 30 0, CurrentRequest)]
  /\ uniqueKey
       (attendance
          (mysql
             (handleAll utcDefault
                [(jan15 8 45 0, CheckInRequest 7 "Eve Anderson");
                 (jan15 9 15 0, CheckInRequest 3 "Alice Smith");
                 (jan15 12 0 0, ReportRequest 19737 19737);
                 (jan15 17 0 0, CheckOutRequest 7);
                 (jan15 17 30 0, CurrentRequest)] office))).
Proof.
  assert (Hv : validStart utcDefault) by (vm_compute; repeat split; discriminate).
  assert (H1 : inOrder 0 [(jan15 8 45 0, CheckInRequest 7 "Eve Anderson");
                          (jan15 9 15 0, CheckInRequest 3 "Alice Smith");
                          (jan15 12 0 0, ReportRequest 19737 19737);
                          (jan15 17 0 0, CheckOutRequest 7);
                          (jan15 17 30 0, CurrentRequest)])
    by (cbn; repeat split; discriminate).
  split; [exact Hv|]. do 3 (split; [reflexivity|]). split; [exact H1|].
  exact (proj1 (served_requests_keep_consistency utcDefault _ 0 office Hv
                  eq_refl eq_refl eq_refl H1)).
Defined.

(** X11. With consistent stores nobody in the presence set is left out:
    [getCurrentEmployeesInOffice] resolves to rows among which every member
    of the set has its [employees] row. *)
Theorem presence_complete (now : Z) (w : World) :
  Consistent now w ->
  exists rows w',
    AttendanceService.getCurrentEmployeesInOffice w = (Resolved rows, w')
    /\ forall userId, userId ∈ employees_in_office (redis w) ->
                      exists e, e ∈ rows /\ id e = userId.
Proof.
  intros Hcons.
  destruct (currentEmployees_paths w) as (rows & w' & Hcur & _ & _ & _ & Hrows).
  exists rows, w'. split; [exact Hcur|]. intros u Hu.
  destruct (present_are_open _ _ Hcons u Hu) as (a & Ha & Hau & _).
  pose proof (rows_of_employees _ _ Hcons a Ha) as Hemp. rewrite Hau in Hemp.
  apply hasEmployee_elem_of in Hemp as (e & He & Hid).
  exists e. split; [|exact Hid]. apply Hrows. by rewrite Hid.
Qed.

Lemma presence_complete_witness :
  let w := handleAll utcDefault
             [(jan15 8 45 0, CheckInRequest 7 "Eve Anderson");
              (jan15 9 15 0, CheckInRequest 3 "Alice Smith");
              (jan15 17 0 0, CheckOutRequest 7)] office in
  exists last,
    Consistent last w
    /\ 3 ∈ employees_in_office (redis w)
    /\ exists rows w',
         AttendanceService.getCurrentEmployeesInOffice w = (Resolved rows, w')
         /\ exists e, e ∈ rows /\ id e = 3.
Proof.
  intros w.
  destruct (consistent_handleAll utcDefault
              [(jan15 8 45 0, CheckInRequest 7 "Eve Anderson");
               (jan15 9 15 0, CheckInRequest 3 "Alice Smith");
               (jan15 17 0 0, CheckOutRequest 7)] 0 office)
    as (last & _ & Hlast);
    [by apply consistent_empty | cbn; repeat split; discriminate |].
  assert (H3 : 3 ∈ employees_in_office (redis w)).
  { apply elem_of_elements. vm_compute. apply list_elem_of_here. }
  exists last. split; [exact Hlast|]. split; [exact H3|].
  destruct (presence_complete last w Hlast) as (rows & w' & Hcur & Hall).
  exists rows, w'. split; [exact Hcur | by apply Hall].
Defined.

(** *** The report query *)

Lemma leftJoin_rows (startDate endDate : Z) (db : Database) (row : ReportRow) :
  row ∈ MySQL.leftJoin startDate endDate db <->
  exists e, e ∈ employees db
    /\ ((List.filter (MySQL.joins startDate endDate e) (attendance db) = []
         /\ row = MySQL.nullRow e)
        \/ exists a, a ∈ attendance db
                     /\ MySQL.joins startDate endDate e a = true
                     /\ row = MySQL.joinedRow e a).
Proof.
  unfold MySQL.leftJoin. rewrite list_elem_of_In, in_flat_map. split.
  - intros (e & He & Hrow). exists e. split; [by apply list_elem_of_In|].
    destruct (List.filter _ (attendance db)) as [|a0 rest] eqn:Hf.
    + left. split; [done|]. destruct Hrow as [<-|[]]. done.
    + right. apply in_map_iff in Hrow as (a & <- & Ha).
      rewrite <- Hf in Ha. apply filter_In in Ha as [Ha Hj].
      exists a. by rewrite list_elem_of_In.
  - intros (e & He & Hcase). exists e. split; [by apply list_elem_of_In|].
    destruct Hcase as [[Hf ->]|(a & Ha & Hj & ->)].
    + rewrite Hf. by left.
    + assert (Hin : In a (List.filter (MySQL.joins startDate endDate e)
                            (attendance db)))
        by (apply filter_In; by rewrite <- list_elem_of_In).
      destruct (List.filter _ (attendance db)); [done|]. by apply in_map.
Qed.

Lemma joins_true (startDate endDate : Z) (e : Employee) (a : Attendance) :
  MySQL.joins startDate endDate e a = true
  <-> employee_id a = id e /\ startDate <= date a <= endDate.
Proof.
  unfold MySQL.joins. rewrite !andb_true_iff, Z.eqb_eq, !Z.leb_le.
  split; [intros (-> & ? & ?) | intros (-> & ? & ?)]; done.
Qed.

(** X8. A report computed from the tables (no report cached for the range)
    echoes the two dates and holds the LEFT JOIN: every employee has at
    least one row; every attendance row of an employee dated within the
    range is a row of the report with its date and times; and every row of
    the report belongs to an employee and either carries an attendance row
    of that employee dated within the range or, when that employee has none,
    NULL date and times. *)
Theorem report_is_left_join (startDate0 endDate0 : Z) (w : World) :
  RedisClient.get (clock w) (ReportKey startDate0 endDate0) (redis w) = None ->
  exists report w',
    AttendanceService.getAttendanceReport startDate0 endDate0 w
    = (Resolved report, w')
    /\ startDate report = startDate0 /\ endDate report = endDate0
    /\ (forall e, e ∈ employees (mysql w) ->
                  exists row, row ∈ records report /\ r_id row = id e
                              /\ r_name row = name e
                              /\ r_department row = department e)
    /\ (forall e a, e ∈ employees (mysql w) -> a ∈ attendance (mysql w) ->
                    employee_id a = id e -> startDate0 <= date a <= endDate0 ->
                    MySQL.joinedRow e a ∈ records report)
    /\ (forall row, row ∈ records report ->
          exists e, e ∈ employees (mysql w)
            /\ ((row = MySQL.nullRow e
                 /\ forall a, a ∈ attendance (mysql w) -> employee_id a = id e ->
                              ~ startDate0 <= date a <= endDate0)
                \/ exists a, a ∈ attendance (mysql w)
                             /\ employee_id a = id e
                             /\ startDate0 <= date a <= endDate0
                             /\ row = MySQL.joinedRow e a)).
Proof.
  intros Hmiss. eexists. eexists. split; [by apply report_miss|].
  cbn [freshReport startDate endDate records]. unfold MySQL.selectReport.
  split; [done|]. split; [done|]. split; [|split].
  - intros e He.
    destruct (List.filter (MySQL.joins startDate0 endDate0 e)
                (attendance (mysql w))) as [|a rest] eqn:Hf.
    + exists (MySQL.nullRow e). split; [|done].
      apply orderBy_elem_of, leftJoin_rows. exists e. split; [done|]. by left.
    + assert (Ha : In a (List.filter (MySQL.joins startDate0 endDate0 e)
                           (attendance (mysql w)))) by (rewrite Hf; by left).
      apply filter_In in Ha as [Ha Hj]. exists (MySQL.joinedRow e a).
      split; [|done]. apply orderBy_elem_of, leftJoin_elem_of; [done| |done].
      by apply list_elem_of_In.
  - intros e a He Ha Hid Hr. apply orderBy_elem_of, leftJoin_elem_of; [done..|].
    by apply joins_true.
  - intros row (e & He & Hcase)%orderBy_elem_of%leftJoin_rows.
    exists e. split; [done|]. destruct Hcase as [[Hf ->]|(a & Ha & Hj & ->)].
    + left. split; [done|]. intros a Ha Hid Hr.
      apply filter_nil_existsb in Hf.
      assert (existsb (MySQL.joins startDate0 endDate0 e) (attendance (mysql w))
              = true); [|congruence].
      apply existsb_exists. exists a. split; [by apply list_elem_of_In|].
      by apply joins_true.
    + right. apply joins_true in Hj as [Hid Hr]. by exists a.
Qed.

Lemma report_is_left_join_witness :
  let w := setClock (jan15 12 0 0) seededToday in
  RedisClient.get (clock w) (ReportKey 19737 19737) (redis w) = None
  /\ exists report w',
       AttendanceService.getAttendanceReport 19737 19737 w = (Resolved report, w')
       /\ length (records report) = 10%nat.
Proof.
  intros w.
  assert (H : RedisClient.get (clock w) (ReportKey 19737 19737) (redis w) = None)
    by reflexivity.
  split; [exact H|].
  destruct (report_is_left_join 19737 19737 w H) as (report & w' & Hrep & _).
  exists report, w'. split; [exact Hrep|].
  rewrite (report_miss _ _ _ H) in Hrep. injection Hrep as <- _.
  vm_compute. reflexivity.
Defined.

Lemma Sorted_weaken {A} (R R' : A -> A -> Prop) (l : list A) :
  (forall x y, R x y -> R' x y) -> Sorted R l -> Sorted R' l.
Proof.
  intros Hsub. induction 1 as [|x l _ IH Hhd]; constructor; [exact IH|].
  destruct Hhd; constructor. by apply Hsub.
Qed.

(** X9. [ORDER BY e.name, a.date]: under a collation that orders any two
    names one way or the other ([compare y x] is the opposite of
    [compare x y]), the rows of a computed report are in order: of two
    neighbouring rows, the first has the smaller name, or an equal name and a
    date that is NULL or not later. *)
Theorem report_is_ordered (startDate0 endDate0 : Z) (w : World) :
  (forall x y, collation (mysql w) y x = CompOpp (collation (mysql w) x y)) ->
  RedisClient.get (clock w) (ReportKey startDate0 endDate0) (redis w) = None ->
  exists report w',
    AttendanceService.getAttendanceReport startDate0 endDate0 w
    = (Resolved report, w')
    /\ Sorted (fun r1 r2 => MySQL.rowLeb (mysql w) r1 r2 = true) (records report).
Proof.
  intros Hanti Hmiss. eexists. eexists. split; [by apply report_miss|].
  cbn [freshReport records]. unfold MySQL.selectReport, MySQL.orderBy.
  assert (Htotal : Total (fun r1 r2 => Is_true (MySQL.rowLeb (mysql w) r1 r2))).
  { intros r1 r2. unfold MySQL.rowLeb. rewrite (Hanti (r_name r1) (r_name r2)).
    destruct (collation (mysql w) (r_name r1) (r_name r2)); cbn; [|by left|by right].
    destruct (r_date r1) as [x|], (r_date r2) as [y|]; cbn; try (by left); try (by right).
    destruct (Z.leb_spec x y); [by left|]. right.
    apply Is_true_true, Z.leb_le. lia. }
  pose proof (@Sorted_merge_sort _
                (fun r1 r2 => Is_true (MySQL.rowLeb (mysql w) r1 r2)) _ Htotal
                (MySQL.leftJoin startDate0 endDate0 (mysql w))) as Hs.
  eapply Sorted_weaken; [|exact Hs]. intros r1 r2 H. by apply Is_true_true.
Qed.

Lemma report_is_ordered_witness :
  let w := setClock (jan15 12 0 0) seededToday in
  (forall x y, collation (mysql w) y x = CompOpp (collation (mysql w) x y))
  /\ exists report w',
       AttendanceService.getAttendanceReport 19737 19737 w = (Resolved report, w')
       /\ Sorted (fun r1 r2 => MySQL.rowLeb (mysql w) r1 r2 = true) (records report).
Proof.
  intros w.
  assert (H : forall x y, collation (mysql w) y x = CompOpp (collation (mysql w) x y))
    by (intros x y; apply String.compare_antisym).
  split; [exact H|].
  exact (report_is_ordered 19737 19737 w H eq_refl).
Defined.

(** *** Interleaved check-ins, and the clock *)

(** X12. Whatever the interleaving of pending check-ins, the table holds at
    most one attendance row per employee and day, and, for a WORK_START_TIME
    that is unset or reads HH:MM in range, every job in the queue has a
    non-negative [minutesLate] (given both hold at the start and no call is
    already suspended at the queue with a check-in time that is not
    late). *)
Theorem interleaved_checkIns_keep_invariants (cfg : Config)
    (schedule : list (nat * Z)) (calls : list CheckInCall) (w : World)
    (userId d : Z) :
  validStart cfg ->
  uniqueKey (attendance (mysql w)) ->
  Forall (lateAtQueue cfg) calls ->
  jobsNonNegative w ->
  (length (recordsFor userId d
             (mysql (snd (Concurrent.run cfg schedule calls w)))) <= 1)%nat
  /\ jobsNonNegative (snd (Concurrent.run cfg schedule calls w)).
Proof.
  intros _ Hu Hcalls Hjobs. split.
  - by apply uniqueKey_recordsFor, run_uniqueKey.
  - by apply run_jobsNonNegative.
Qed.

Lemma interleaved_checkIns_keep_invariants_witness :
  validStart utcDefault
  /\ uniqueKey (attendance (mysql office))
  /\ Forall (lateAtQueue utcDefault) doubleClick
  /\ jobsNonNegative office
  /\ (length (recordsFor 7 19737
                (mysql (snd (Concurrent.run utcDefault racingSchedule
                               doubleClick office)))) <= 1)%nat.
Proof.
  assert (H0 : validStart utcDefault) by (vm_compute; repeat split; discriminate).
  assert (H1 : uniqueKey (attendance (mysql office))) by apply NoDup_nil_2.
  assert (H2 : Forall (lateAtQueue utcDefault) doubleClick)
    by (repeat constructor; discriminate).
  assert (H3 : jobsNonNegative office) by apply Forall_nil_2.
  split; [exact H0|]. split; [exact H1|]. split; [exact H2|]. split; [exact H3|].
  exact (proj1 (interleaved_checkIns_keep_invariants utcDefault racingSchedule
                  doubleClick office 7 19737 H0 H1 H2 H3)).
Defined.

(** X13. Lateness for any WORK_START_TIME that reads HH:MM with the hour
    [h] in 0..23 and the minute [m] in 0..59: a check-in is late exactly
    when its local time of day is strictly after [h:m];
    [calculateMinutesLate] is the floor of the minutes between [h:m] and the
    local time of day, so between 0 and 1439 on a late check-in; both depend
    on the instant through its local time of day only. *)
Theorem lateness_any_start (cfg : Config) (t t' : Z) :
  validStart cfg ->
  let start := fst (Clock.workStartTime cfg) * Clock.msPerHour
               + snd (Clock.workStartTime cfg) * Clock.msPerMinute in
  (Clock.isLate cfg t = true <-> start < Clock.timeOfDay cfg t)
  /\ Clock.calculateMinutesLate cfg t
     = (Clock.timeOfDay cfg t - start) / Clock.msPerMinute
  /\ (Clock.isLate cfg t = true -> 0 <= Clock.calculateMinutesLate cfg t < 1440)
  /\ (Clock.timeOfDay cfg t' = Clock.timeOfDay cfg t ->
      Clock.isLate cfg t' = Clock.isLate cfg t
      /\ Clock.calculateMinutesLate cfg t' = Clock.calculateMinutesLate cfg t).
Proof.
  intros [Hh Hm] start.
  assert (Hstart : 0 <= start).
  { unfold start. change Clock.msPerHour with 3600000.
    change Clock.msPerMinute with 60000. lia. }
  assert (Hlate : forall u, Clock.isLate cfg u = true <-> start < Clock.timeOfDay cfg u).
  { intros u. rewrite isLate_after_start. pose proof (since_start cfg u). lia. }
  assert (Hmin : forall u, Clock.calculateMinutesLate cfg u
                           = (Clock.timeOfDay cfg u - start) / Clock.msPerMinute).
  { intros u. unfold Clock.calculateMinutesLate. fold (Clock.startOfDay cfg u).
    by rewrite since_start. }
  split; [apply Hlate|]. split; [apply Hmin|]. split.
  - intros Hl%Hlate. rewrite Hmin. pose proof (timeOfDay_range cfg t) as Hr.
    change Clock.msPerDay with 86400000 in Hr.
    change Clock.msPerMinute with 60000. split.
    + apply Z.div_pos; lia.
    + apply Z.div_lt_upper_bound; lia.
  - intros Heq. split; [|by rewrite !Hmin, Heq].
    destruct (Clock.isLate cfg t) eqn:E.
    + apply Hlate. rewrite Heq. by apply Hlate.
    + apply not_true_is_false. rewrite Hlate, Heq, <- Hlate. congruence.
Qed.

Lemma lateness_any_start_witness :
  validStart halfPastEight
  /\ (Clock.isLate halfPastEight (jan15 8 45 0) = true ->
      0 <= Clock.calculateMinutesLate halfPastEight (jan15 8 45 0) < 1440)
  /\ Clock.calculateMinutesLate halfPastEight (jan15 8 45 0) = 15.
Proof.
  assert (Hv : validStart halfPastEight) by (vm_compute; repeat split; discriminate).
  split; [exact Hv|].
  split; [|reflexivity].
  exact (proj1 (proj2 (proj2 (lateness_any_start halfPastEight (jan15 8 45 0) 0 Hv)))).
Defined.

(** X14. The day a check-in is filed under is the UTC day, while lateness
    is judged on the local clock. For an offset of at most a day either
    way, the UTC day is the local day, except that it is the day before when
    the local time of day is earlier than a positive offset, and the day
    after when the local time of day is within a negative offset of
    midnight. *)
Theorem filed_under_utc_day (cfg : Config) (t : Z) :
  - Clock.msPerDay <= tzOffset cfg <= Clock.msPerDay ->
  Clock.getTodayDate t
  = Clock.toDateString cfg t
    + (if Clock.timeOfDay cfg t <? tzOffset cfg then -1
       else if Clock.msPerDay + tzOffset cfg <=? Clock.timeOfDay cfg t then 1
       else 0).
Proof.
  intros Hoff. pose proof (day_split cfg t) as Hsplit.
  pose proof (timeOfDay_range cfg t) as Hr.
  unfold Clock.getTodayDate.
  set (day := Clock.toDateString cfg t) in *.
  set (tod := Clock.timeOfDay cfg t) in *.
  change Clock.msPerDay with 86400000 in *.
  destruct (tod <? tzOffset cfg) eqn:E1.
  - apply Z.ltb_lt in E1. symmetry. apply Z.div_unique with (r := t - (day + -1) * 86400000); lia.
  - apply Z.ltb_ge in E1. destruct (86400000 + tzOffset cfg <=? tod) eqn:E2.
    + apply Z.leb_le in E2. symmetry.
      apply Z.div_unique with (r := t - (day + 1) * 86400000); lia.
    + apply Z.leb_gt in E2. symmetry.
      apply Z.div_unique with (r := t - (day + 0) * 86400000); lia.
Qed.

Lemma filed_under_utc_day_witness :
  let jakarta := {| WORK_START_TIME := None; tzOffset := 7 * Clock.msPerHour |} in
  - Clock.msPerDay <= tzOffset jakarta <= Clock.msPerDay
  /\ Clock.toDateString jakarta (localInstant jakarta 19737 6 30 0) = 19737
  /\ Clock.getTodayDate (localInstant jakarta 19737 6 30 0) = 19736.
Proof.
  intros jakarta.
  assert (H : - Clock.msPerDay <= tzOffset jakarta <= Clock.msPerDay)
    by (vm_compute; split; discriminate).
  split; [exact H|]. split; [reflexivity|].
  rewrite (filed_under_utc_day jakarta (localInstant jakarta 19737 6 30 0) H).
  reflexivity.
Defined.

(** *** The e-mail pattern *)

Lemma seq_inv (r1 r2 : Regex) (s : list ascii) :
  matches (Seq r1 r2) s ->
  exists s1 s2, s = s1 ++ s2 /\ matches r1 s1 /\ matches r2 s2.
Proof. inversion 1; subst; eauto. Qed.

Lemma class_inv (p : ascii -> bool) (s : list ascii) :
  matches (Class p) s -> exists a, s = [a] /\ p a = true.
Proof. inversion 1; subst; eauto. Qed.

Lemma alt_inv (r1 r2 : Regex) (s : list ascii) :
  matches (Alt r1 r2) s -> matches r1 s \/ matches r2 s.
Proof. inversion 1; subst; eauto. Qed.

Lemma nullable_matches (r : Regex) : RegExp.nullable r = true <-> matches r [].
Proof.
  induction r; cbn.
  - split; [discriminate | inversion 1].
  - split; [constructor | done].
  - split; [discriminate | inversion 1].
  - rewrite andb_true_iff, IHr1, IHr2. split.
    + intros [H1 H2]. apply (m_seq _ _ [] [] H1 H2).
    + intros (s1 & s2 & Heq & H1 & H2)%seq_inv.
      destruct s1; [|discriminate]. destruct s2; [|discriminate]. done.
  - rewrite orb_true_iff, IHr1, IHr2. split.
    + intros [H|H]; [by apply m_alt_l | by apply m_alt_r].
    + apply alt_inv.
  - split; [constructor | done].
Qed.

Lemma star_cons (r : Regex) (a : ascii) (s : list ascii) :
  matches (Star r) (a :: s) ->
  exists s1 s2, s = s1 ++ s2 /\ matches r (a :: s1) /\ matches (Star r) s2.
Proof.
  intros H. remember (Star r) as r' eqn:Hr. remember (a :: s) as s' eqn:Hs.
  revert s Hs.
  induction H as [| | | | | |r0 s1 s2 H1 _ H2 IH2]; try discriminate.
  injection Hr as ->. intros s Hs.
  destruct s1 as [|b s1].
  - cbn in Hs. by apply IH2.
  - cbn in Hs. injection Hs as -> <-. by exists s1, s2.
Qed.

Lemma deriv_matches (r : Regex) (a : ascii) (s : list ascii) :
  matches (RegExp.deriv a r) s <-> matches r (a :: s).
Proof.
  revert s. induction r; intros s; cbn.
  - split; inversion 1.
  - split; inversion 1.
  - destruct (p a) eqn:Hp; split.
    + inversion 1; subst. by constructor.
    + intros (b & [= <- ->] & _)%class_inv. constructor.
    + inversion 1.
    + intros (b & [= <- ->] & Hb)%class_inv. congruence.
  - assert (Hseq : matches (Seq (RegExp.deriv a r1) r2) s ->
                   matches (Seq r1 r2) (a :: s)).
    { intros (s1 & s2 & -> & H1 & H2)%seq_inv.
      apply IHr1 in H1. apply (m_seq _ _ (a :: s1) s2 H1 H2). }
    assert (Hback : matches (Seq r1 r2) (a :: s) ->
                    matches (Seq (RegExp.deriv a r1) r2) s
                    \/ (matches r1 [] /\ matches r2 (a :: s))).
    { intros (s1 & s2 & Heq & H1 & H2)%seq_inv.
      destruct s1 as [|b s1]; cbn in Heq.
      - right. subst s2. done.
      - injection Heq as -> ->. left. apply m_seq; [by apply IHr1 | done]. }
    destruct (RegExp.nullable r1) eqn:Hn; split.
    + intros [H|H]%alt_inv; [by apply Hseq|].
      apply (m_seq _ _ [] (a :: s)); [by apply nullable_matches | by apply IHr2].
    + intros [H|[_ H]]%Hback; [by apply m_alt_l | apply m_alt_r; by apply IHr2].
    + apply Hseq.
    + intros [H|[H _]]%Hback; [done|].
      apply nullable_matches in H. congruence.
  - split.
    + intros [H|H]%alt_inv; [apply m_alt_l; by apply IHr1 | apply m_alt_r; by apply IHr2].
    + intros [H|H]%alt_inv; [apply m_alt_l; by apply IHr1 | apply m_alt_r; by apply IHr2].
  - split.
    + intros (s1 & s2 & -> & H1 & H2)%seq_inv.
      apply IHr in H1. apply (m_star_app _ (a :: s1) s2 H1 H2).
    + intros (s1 & s2 & -> & H1 & H2)%star_cons.
      apply m_seq; [by apply IHr | done].
Qed.

Lemma matchAll_matches (r : Regex) (s : list ascii) :
  RegExp.matchAll r s = true <-> matches r s.
Proof.
  revert r. induction s as [|a s IH]; intros r; cbn.
  - apply nullable_matches.
  - rewrite IH. apply deriv_matches.
Qed.

(** A non-empty run of characters of a class. *)
Lemma plus_class (p : ascii -> bool) (s : list ascii) :
  matches (RegExp.Plus (Class p)) s <-> s <> [] /\ forallb p s = true.
Proof.
  assert (Hstar : forall u, matches (Star (Class p)) u <-> forallb p u = true).
  { intros u. split.
    - intros H. remember (Star (Class p)) as r eqn:Hr.
      induction H as [| | | | | |r0 s1 s2 H1 _ H2 IH2]; try discriminate; [done|].
      injection Hr as ->. apply class_inv in H1 as (a & -> & Ha).
      cbn. rewrite Ha. by apply IH2.
    - induction u as [|a u IH]; cbn; [constructor|].
      intros [Ha Hu]%andb_true_iff.
      apply (m_star_app _ [a] u); [by constructor | by apply IH]. }
  unfold RegExp.Plus. split.
  - intros (s1 & s2 & -> & (a & -> & Ha)%class_inv & H2%Hstar)%seq_inv.
    split; [done|]. cbn. by rewrite Ha.
  - intros [Hne Hall]. destruct s as [|a u]; [done|].
    cbn in Hall. apply andb_true_iff in Hall as [Ha Hu].
    apply (m_seq _ _ [a] u); [by constructor | by apply Hstar].
Qed.

Lemma emailRegex_shape (email : string) :
  RegExp.test RegExp.emailRegex email = true <->
  exists localPart domain tld,
    list_ascii_of_string email
    = localPart ++ ["@"%char] ++ domain ++ ["."%char] ++ tld
    /\ localPart <> [] /\ domain <> [] /\ tld <> []
    /\ forallb RegExp.notSpaceNorAt (localPart ++ domain ++ tld) = true.
Proof.
  unfold RegExp.test. rewrite matchAll_matches. unfold RegExp.emailRegex. split.
  - intros (l & s1 & -> & [Hl Hlc]%plus_class & H1)%seq_inv.
    apply seq_inv in H1 as (at1 & s2 & -> & (a & -> & Ha)%class_inv & H2).
    apply seq_inv in H2 as (d & s3 & -> & [Hd Hdc]%plus_class & H3).
    apply seq_inv in H3 as (dot & t & -> & (b & -> & Hb)%class_inv & [Ht Htc]%plus_class).
    apply Ascii.eqb_eq in Ha as <-. apply Ascii.eqb_eq in Hb as <-.
    exists l, d, t. repeat split; try done.
    rewrite !forallb_app, Hlc, Hdc, Htc. done.
  - intros (l & d & t & -> & Hl & Hd & Ht & Hall).
    rewrite !forallb_app, !andb_true_iff in Hall. destruct Hall as (Hlc & Hdc & Htc).
    apply m_seq; [by apply plus_class|].
    apply m_seq; [constructor; apply Ascii.eqb_refl|].
    apply m_seq; [by apply plus_class|].
    apply m_seq; [constructor; apply Ascii.eqb_refl | by apply plus_class].
Qed.

(** *** Login, sessions and the protected routes *)

(** X15. [validateLoginRequest] lets a request through exactly when
    [email] is a string of the form local@domain.tld in which the three
    parts are non-empty and contain neither white space nor "@" (dots are
    allowed inside the parts); every other request is answered with status
    400: "Valid email is required" for a missing, non-string or empty value,
    "Invalid email format" otherwise. *)
Theorem validateLoginRequest_accepts (e : option string) :
  (Middleware.validateLoginRequest e = None <->
   exists address localPart domain tld,
     e = Some address
     /\ list_ascii_of_string address
        = localPart ++ ["@"%char] ++ domain ++ ["."%char] ++ tld
     /\ localPart <> [] /\ domain <> [] /\ tld <> []
     /\ forallb RegExp.notSpaceNorAt (localPart ++ domain ++ tld) = true)
  /\ (forall code error,
        Middleware.validateLoginRequest e = Some (code, error) ->
        code = 400
        /\ (error = "Valid email is required"
            <-> e = None \/ e = Some EmptyString)
        /\ (error <> "Valid email is required" -> error = "Invalid email format")).
Proof.
  split.
  - split.
    + destruct e as [address|]; [|discriminate]. cbn.
      destruct address as [|c rest]; [discriminate|]. cbn [AuthService.falsy].
      destruct (RegExp.test RegExp.emailRegex (String c rest)) eqn:Htest;
        [|discriminate].
      intros _. apply emailRegex_shape in Htest as (l & d & t & H).
      by exists (String c rest), l, d, t.
    + intros (address & l & d & t & -> & Hshape).
      assert (Htest : RegExp.test RegExp.emailRegex address = true)
        by (apply emailRegex_shape; by exists l, d, t).
      cbn. destruct address as [|c rest].
      * destruct Hshape as (Hl & _). by destruct l.
      * cbn [AuthService.falsy]. by rewrite Htest.
  - intros code error.
    destruct e as [[|c rest]|]; unfold Middleware.validateLoginRequest;
      cbn [AuthService.falsy].
    + intros [= <- <-]. split; [done|]. split; [|done]. split; [by right|done].
    + destruct (RegExp.test RegExp.emailRegex (String c rest)); cbn; [intros [=]|].
      intros [= <- <-]. split; [done|]. split; [|done].
      split; [discriminate | intros [H|H]; discriminate].
    + intros [= <- <-]. split; [done|]. split; [|done]. split; [by left|done].
Qed.

Lemma count_occ_class (l : list ascii) :
  forallb RegExp.notSpaceNorAt l = true ->
  count_occ ascii_dec l "@"%char = 0%nat
  /\ forallb (fun c => negb (RegExp.whitespace c)) l = true.
Proof.
  induction l as [|c l IH]; [done|]. cbn [forallb count_occ].
  intros [Hc Hl]%andb_true_iff. destruct (IH Hl) as [Hn Hw].
  unfold RegExp.notSpaceNorAt in Hc. apply andb_true_iff in Hc as [Hws Hat].
  rewrite Hws, Hw. split; [|done].
  destruct (ascii_dec c "@") as [->|_]; [|exact Hn].
  by rewrite Ascii.eqb_refl in Hat.
Qed.

(** X16. An address that passes [validateLoginRequest] contains exactly one
    "@", no white space, and at least five characters. *)
Theorem accepted_address (address : string) :
  Middleware.validateLoginRequest (Some address) = None ->
  count_occ ascii_dec (list_ascii_of_string address) "@"%char = 1%nat
  /\ forallb (fun c => negb (RegExp.whitespace c)) (list_ascii_of_string address)
     = true
  /\ (5 <= length (list_ascii_of_string address))%nat.
Proof.
  intros Hok.
  assert (Htest : RegExp.test RegExp.emailRegex address = true).
  { cbn in Hok. destruct address as [|c rest]; [discriminate|].
    cbn [AuthService.falsy] in Hok.
    by destruct (RegExp.test RegExp.emailRegex (String c rest)). }
  apply emailRegex_shape in Htest as (l & d & t & -> & Hl & Hd & Ht & Hall).
  rewrite !forallb_app, !andb_true_iff in Hall. destruct Hall as (Hlc & Hdc & Htc).
  destruct (count_occ_class l Hlc) as [Hl0 Hlw].
  destruct (count_occ_class d Hdc) as [Hd0 Hdw].
  destruct (count_occ_class t Htc) as [Ht0 Htw].
  split; [|split].
  - rewrite !count_occ_app, Hl0, Hd0, Ht0. reflexivity.
  - rewrite !forallb_app, Hlw, Hdw, Htw. reflexivity.
  - rewrite !length_app. cbn.
    destruct l; [done|]. destruct d; [done|]. destruct t; [done|]. cbn. lia.
Qed.

Lemma accepted_address_witness :
  Middleware.validateLoginRequest (Some "sarah.johnson@company.com") = None
  /\ count_occ ascii_dec (list_ascii_of_string "sarah.johnson@company.com")
       "@"%char = 1%nat.
Proof.
  split; [reflexivity|].
  exact (proj1 (accepted_address "sarah.johnson@company.com" eq_refl)).
Defined.

Lemma token_truthy (timestamp userId : Z) (random : string) :
  AuthService.falsy (Some (AuthService.generateToken timestamp userId random))
  = false.
Proof. reflexivity. Qed.

Lemma getSession_created (cfg : AuthConfig) (u : EmployeeRow) (random : string)
    (s s' : Server) (token : string) (t : Z) :
  AuthService.createSession cfg u random s = (Resolved token, s') ->
  token = AuthService.generateToken (clock (app s)) (id (employee u)) random
  /\ 0 < AuthService.sessionExpiry cfg
  /\ app s' = app s /\ employeeRows s' = employeeRows s
  /\ sessions s'
     = <[token := (u, clock (app s) + AuthService.sessionExpiry cfg * 1000)]>
         (sessions s)
  /\ AuthService.getSession token (laterAt t s')
     = if t <=? clock (app s) + AuthService.sessionExpiry cfg * 1000
       then Some u else None.
Proof.
  unfold AuthService.createSession.
  destruct (AuthService.sessionExpiry cfg <=? 0) eqn:E; [discriminate|].
  apply Z.leb_gt in E. intros [= <- <-]. repeat split; try done.
  unfold AuthService.getSession, laterAt. cbn. by rewrite lookup_insert_eq.
Qed.

Lemma login_service_paths (cfg : AuthConfig) (address : string) (random : string)
    (s : Server) :
  address <> EmptyString ->
  AuthService.login cfg (Some address) random s =
  match AuthService.findEmployeeByEmail address s with
  | None => (Rejected (Error "Employee not found"), s)
  | Some u =>
      if AuthService.sessionExpiry cfg <=? 0
      then (Rejected (Error "ERR invalid expire time in 'setex' command"), s)
      else (Resolved {| token := AuthService.generateToken (clock (app s))
                                   (id (employee u)) random;
                        user := u |},
            setSessions
              (<[AuthService.generateToken (clock (app s)) (id (employee u)) random
                 := (u, clock (app s) + AuthService.sessionExpiry cfg * 1000)]>
                 (sessions s)) s)
  end.
Proof.
  intros Hne. unfold AuthService.login, AuthService.createSession.
  destruct address as [|c rest]; [done|]. cbn [AuthService.falsy].
  destruct (AuthService.findEmployeeByEmail _ s); [|reflexivity].
  by destruct (AuthService.sessionExpiry cfg <=? 0).
Qed.

Lemma validated_nonempty (address : string) :
  Middleware.validateLoginRequest (Some address) = None -> address <> EmptyString.
Proof. by intros H ->. Qed.

(** X17. Login round trip: for a well-formed address that the [employees]
    table holds and a positive session lifetime, POST /login answers with a
    token and that employee's row, changes nothing but the session store,
    and up to the end of the session lifetime [authenticate] accepts the
    token and puts that same row in [req.user]. *)
Theorem login_opens_session (cfg : AuthConfig) (address random : string)
    (s : Server) (u : EmployeeRow) (t : Z) :
  Middleware.validateLoginRequest (Some address) = None ->
  AuthService.findEmployeeByEmail address s = Some u ->
  0 < AuthService.sessionExpiry cfg ->
  t <= clock (app s) + AuthService.sessionExpiry cfg * 1000 ->
  exists s',
    Routes.login cfg (Some address) random s
    = (Ok {| token := AuthService.generateToken (clock (app s))
                        (id (employee u)) random;
             user := u |}, s')
    /\ app s' = app s /\ employeeRows s' = employeeRows s
    /\ Middleware.authenticate
         (Some (AuthService.generateToken (clock (app s)) (id (employee u)) random))
         (laterAt t s')
       = inl u.
Proof.
  intros Hvalid Hfind Hpos Ht.
  unfold Routes.login, AuthController.login. rewrite Hvalid.
  rewrite (login_service_paths _ _ _ _ (validated_nonempty _ Hvalid)), Hfind.
  destruct (AuthService.sessionExpiry cfg <=? 0) eqn:E; [lia|].
  eexists. split; [reflexivity|]. split; [done|]. split; [done|].
  unfold Middleware.authenticate. rewrite token_truthy.
  unfold AuthService.getSession, laterAt. cbn. rewrite lookup_insert_eq.
  destruct (t <=? _) eqn:E2; [done | lia].
Qed.

Lemma login_opens_session_witness :
  Middleware.validateLoginRequest (Some "eve.anderson@company.com") = None
  /\ 0 < AuthService.sessionExpiry eightHours
  /\ exists u s',
       AuthService.findEmployeeByEmail "eve.anderson@company.com" seedServer = Some u
       /\ id (employee u) = 7
       /\ fst (Routes.login eightHours (Some "eve.anderson@company.com")
                 "00112233445566778899aabbccddeeff" seedServer)
          = Ok {| token := "token_0_7_00112233445566778899aabbccddeeff"; user := u |}
       /\ Middleware.authenticate
            (Some "token_0_7_00112233445566778899aabbccddeeff")
            (laterAt (8 * Clock.msPerHour) s')
          = inl u.
Proof.
  assert (H1 : Middleware.validateLoginRequest (Some "eve.anderson@company.com")
               = None) by reflexivity.
  assert (H2 : 0 < AuthService.sessionExpiry eightHours) by reflexivity.
  split; [exact H1|]. split; [exact H2|].
  eexists. 
  destruct (login_opens_session eightHours "eve.anderson@company.com"
              "00112233445566778899aabbccddeeff" seedServer _
              (8 * Clock.msPerHour) H1 eq_refl H2)
    as (s' & Hlogin & _ & _ & Hauth); [vm_compute; discriminate|].
  exists s'. split; [reflexivity|]. split; [reflexivity|].
  split; [by rewrite Hlogin | exact Hauth].
Defined.

(** X18. Sessions expire: once more than the session lifetime has passed
    since the session was created, [authenticate] answers 401 "Invalid or
    expired token" for its token, and so does a protected route, without
    changing anything. The lifetime is [SESSION_EXPIRY] seconds, or 28800
    when that is unset, not a number, or 0. *)
Theorem session_expires (cfg : AuthConfig) (u : EmployeeRow) (random : string)
    (s s' : Server) (token : string) (t : Z) :
  AuthService.createSession cfg u random s = (Resolved token, s') ->
  clock (app s) + AuthService.sessionExpiry cfg * 1000 < t ->
  Middleware.authenticate (Some token) (laterAt t s')
  = inr (401, "Invalid or expired token")
  /\ Routes.current (Some token) (laterAt t s')
     = (Status 401 "Invalid or expired token", laterAt t s')
  /\ (SESSION_EXPIRY cfg = None \/ SESSION_EXPIRY cfg = Some 0 ->
      AuthService.sessionExpiry cfg = 28800).
Proof.
  intros Hcreate Hlate.
  destruct (getSession_created _ _ _ _ _ _ t Hcreate) as (-> & _ & _ & _ & _ & Hget).
  assert (Hauth : Middleware.authenticate
                    (Some (AuthService.generateToken (clock (app s))
                             (id (employee u)) random)) (laterAt t s')
                  = inr (401, "Invalid or expired token")).
  { unfold Middleware.authenticate. rewrite token_truthy, Hget.
    destruct (t <=? _) eqn:E; [lia | done]. }
  split; [exact Hauth|]. split.
  - unfold Routes.current, Routes.authenticated. by rewrite Hauth.
  - unfold AuthService.sessionExpiry. by intros [->| ->].
Qed.

Lemma session_expires_witness :
  exists u token s',
    AuthService.createSession eightHours u "00112233445566778899aabbccddeeff"
      seedServer = (Resolved token, s')
    /\ clock (app seedServer) + AuthService.sessionExpiry eightHours * 1000
       < 8 * Clock.msPerHour + 1
    /\ Middleware.authenticate (Some token) (laterAt (8 * Clock.msPerHour + 1) s')
       = inr (401, "Invalid or expired token").
Proof.
  exists {| employee := {| id := 7; name := "Eve Anderson"; department := "Marketing" |};
            email := "eve.anderson@company.com" |}.
  eexists. eexists.
  split; [reflexivity|]. split; [reflexivity|].
  refine (proj1 (session_expires eightHours _ "00112233445566778899aabbccddeeff"
                   seedServer _ _ (8 * Clock.msPerHour + 1) eq_refl _)).
  reflexivity.
Defined.

(** X19. Logout ends the session it names and no other: after POST /logout
    with a token, [authenticate] answers 401 for that token, every other
    session reads as before, and the answer is "Logged out successfully"
    whether or not the token named a session; without a token nothing
    changes. *)
Theorem logout_ends_session (token : string) (s : Server) :
  token <> EmptyString ->
  exists s',
    Routes.logout (Some token) s = (Ok "Logged out successfully", s')
    /\ Middleware.authenticate (Some token) s'
       = inr (401, "Invalid or expired token")
    /\ (forall other, other <> token ->
          AuthService.getSession other s' = AuthService.getSession other s)
    /\ app s' = app s
    /\ Routes.logout None s = (Ok "Logged out successfully", s)
    /\ Routes.logout (Some EmptyString) s = (Ok "Logged out successfully", s).
Proof.
  intros Hne. destruct token as [|c rest]; [done|].
  eexists. split; [reflexivity|]. split; [|split; [|done]].
  - unfold Middleware.authenticate, AuthService.getSession. cbn.
    by rewrite lookup_delete_eq.
  - intros other Hother. unfold AuthService.getSession. cbn.
    by rewrite lookup_delete_ne.
Qed.

Lemma logout_ends_session_witness :
  "token_0_7_00112233445566778899aabbccddeeff" <> EmptyString
  /\ exists s',
       Routes.logout (Some "token_0_7_00112233445566778899aabbccddeeff") seedServer
       = (Ok "Logged out successfully", s').
Proof.
  assert (H : "token_0_7_00112233445566778899aabbccddeeff" <> EmptyString)
    by discriminate.
  split; [exact H|].
  destruct (logout_ends_session _ seedServer H) as (s' & Hs' & _).
  by exists s'.
Defined.

Lemma validateLoginRequest_errors (e : option string) (code : Z) (error : string) :
  Middleware.validateLoginRequest e = Some (code, error) ->
  code = 400
  /\ (error = "Valid email is required" \/ error = "Invalid email format").
Proof.
  revert code error. intros code error.
  destruct e as [[|c rest]|]; unfold Middleware.validateLoginRequest;
    cbn [AuthService.falsy].
  - intros [= <- <-]. by split; [|left].
  - destruct (RegExp.test RegExp.emailRegex (String c rest)); cbn; [intros [=]|].
    intros [= <- <-]. by split; [|right].
  - intros [= <- <-]. by split; [|left].
Qed.

Lemma login_route_cases (cfg : AuthConfig) (e : option string) (random : string)
    (s : Server) :
  match Routes.login cfg e random s with
  | (Ok result, s') =>
      exists address,
        e = Some address
        /\ AuthService.findEmployeeByEmail address s = Some (user result)
        /\ token result
           = AuthService.generateToken (clock (app s))
               (id (employee (user result))) random
        /\ 0 < AuthService.sessionExpiry cfg
        /\ s' = setSessions
                  (<[token result
                     := (user result,
                         clock (app s) + AuthService.sessionExpiry cfg * 1000)]>
                     (sessions s)) s
  | (Status code error, s') =>
      s' = s
      /\ error <> "Email is required"
      /\ ((code = 400 /\ Middleware.validateLoginRequest e = Some (400, error))
          \/ (code = 404 /\ error = "Employee not found"
              /\ exists address,
                   e = Some address
                   /\ AuthService.findEmployeeByEmail address s = None)
          \/ (code = 500 /\ error = "Internal server error"
              /\ AuthService.sessionExpiry cfg <= 0))
  end.
Proof.
  unfold Routes.login.
  destruct (Middleware.validateLoginRequest e) as [[code error]|] eqn:Hv.
  - split; [done|].
    destruct (validateLoginRequest_errors e code error Hv) as (-> & Herr).
    split; [|left; done]. destruct Herr as [-> | ->]; discriminate.
  - destruct e as [address|]; [|discriminate].
    unfold AuthController.login.
    rewrite (login_service_paths _ _ _ _ (validated_nonempty _ Hv)).
    destruct (AuthService.findEmployeeByEmail address s) as [u|] eqn:Hfind.
    + destruct (AuthService.sessionExpiry cfg <=? 0) eqn:E.
      * cbn. split; [done|]. split; [discriminate|]. right. right.
        apply Z.leb_le in E. done.
      * apply Z.leb_gt in E. exists address. done.
    + cbn. split; [done|]. split; [discriminate|]. right. left.
      split; [done|]. split; [done|]. by exists address.
Qed.

(** X20. The answers of POST /login. A success carries the row found for
    the address and a token made of the time, that employee's id and the
    random text, and stores exactly that session. Every failure leaves the
    server as it was and is one of: 400 from [validateLoginRequest]; 404
    "Employee not found" when no row has the address; 500 "Internal server
    error" when the session lifetime is not positive and Redis refuses it.
    The answer 400 "Email is required" of the controller is never given on
    this route. *)
Theorem login_answers (cfg : AuthConfig) (e : option string) (random : string)
    (s : Server) :
  match Routes.login cfg e random s with
  | (Ok result, s') =>
      exists address,
        e = Some address
        /\ AuthService.findEmployeeByEmail address s = Some (user result)
        /\ token result
           = AuthService.generateToken (clock (app s))
               (id (employee (user result))) random
        /\ 0 < AuthService.sessionExpiry cfg
        /\ s' = setSessions
                  (<[token result
                     := (user result,
                         clock (app s) + AuthService.sessionExpiry cfg * 1000)]>
                     (sessions s)) s
  | (Status code error, s') =>
      s' = s
      /\ error <> "Email is required"
      /\ ((code = 400 /\ Middleware.validateLoginRequest e = Some (400, error))
          \/ (code = 404 /\ error = "Employee not found"
              /\ exists address,
                   e = Some address
                   /\ AuthService.findEmployeeByEmail address s = None)
          \/ (code = 500 /\ error = "Internal server error"
              /\ AuthService.sessionExpiry cfg <= 0))
  end.
Proof. apply login_route_cases. Qed.

(** X21. The attendance routes require a session: when the request has no
    Authorization header, an empty one, or a token that names no live
    session, each of check-in, check-out, current presence and reports
    answers 401 and nothing is changed: the handler is not run. *)
Theorem routes_require_session (cfg : Config) (authorization : option string)
    (startDate0 endDate0 : option Z) (s : Server) :
  (forall token, authorization = Some token -> token <> EmptyString ->
                 AuthService.getSession token s = None) ->
  exists error,
    (error = "Authentication token required"
     \/ error = "Invalid or expired token")
    /\ Routes.checkin cfg authorization s = (Status 401 error, s)
    /\ Routes.checkout authorization s = (Status 401 error, s)
    /\ Routes.current authorization s = (Status 401 error, s)
    /\ Routes.reports startDate0 endDate0 authorization s = (Status 401 error, s).
Proof.
  intros Hno.
  assert (H : exists error,
             (error = "Authentication token required"
              \/ error = "Invalid or expired token")
             /\ Middleware.authenticate authorization s = inr (401, error)).
  { destruct authorization as [[|c rest]|].
    - exists "Authentication token required". by split; [left|].
    - exists "Invalid or expired token". split; [by right|].
      unfold Middleware.authenticate. cbn [AuthService.falsy].
      by rewrite (Hno (String c rest)).
    - exists "Authentication token required". by split; [left|]. }
  destruct H as (error & Herr & Hauth). exists error. split; [exact Herr|].
  unfold Routes.checkin, Routes.checkout, Routes.current, Routes.reports,
    Routes.authenticated. by rewrite Hauth.
Qed.

Lemma routes_require_session_witness :
  (forall token, Some "token_0_7_stale" = Some token -> token <> EmptyString ->
                 AuthService.getSession token seedServer = None)
  /\ exists error,
       Routes.checkin utcDefault (Some "token_0_7_stale") seedServer
       = (Status 401 error, seedServer).
Proof.
  assert (H : forall token, Some "token_0_7_stale" = Some token ->
                            token <> EmptyString ->
                            AuthService.getSession token seedServer = None)
    by (intros token [= <-] _; reflexivity).
  split; [exact H|].
  destruct (routes_require_session utcDefault (Some "token_0_7_stale") None None
              seedServer H) as (error & _ & Hc & _).
  by exists error.
Defined.
